(** * The quiz backend: a shallow embedding of [src/server.js] and of the
      minimal route set [src/unnamed/part_000]

    The backend is an Express application whose handlers talk to a hosted
    relational store through the Supabase client.  Each handler is embedded
    as a program in a small monad that threads the store and lets a [throw]
    keep every write made before it: the source has no transaction, and a
    [catch] block only shapes the response.

    Every client call returns a [{ data, error }] pair.  Whether the store
    carries a call out or refuses it is decided outside the program, so the
    handlers are run against an [oracle] that names, for the n-th call of a
    request, either the key the store would hand out or the message of the
    error it returns.  A refused call leaves the store as it was.  Errors
    that follow from the data ([.single()] on no row, [toString()] on a
    missing field) are computed, not drawn from the oracle.

    Tables are lists of rows in insertion order.  Keys are strings, counts
    and points and ratings are whole numbers, added and divided as the
    doubles they are in JavaScript, and the one non-integral number, the
    average rating, is the one-decimal result of [toFixed(1)], kept as a
    count of tenths.  Timestamps ([new Date().toISOString()]) are handed to
    a handler as an argument. *)

From Stdlib Require Import ZArith List String Ascii Bool Lia Arith.
From Stdlib Require Import DecimalString Floats.
From Stdlib Require Import Sorting.Permutation Sorting.Sorted.
Import ListNotations.
Local Open Scope string_scope.
Local Open Scope list_scope.
Local Open Scope Z_scope.

(** ** JavaScript values and operators used by the handlers *)

Module Js.

(** *** Numbers

    A JavaScript number is an IEEE 754 binary64 double.  The numbers of the
    payloads and of the rows are whole numbers and are written as integers:
    every integer up to 2^53 in magnitude is a double, and beyond that the
    doubles are the integers with a 53-bit significand.  Doubles stay
    finite here: the overflow to [Infinity], from 2^1024 on, is left
    out. *)

Definition scale (x k : Z) : Z := x * 2 ^ Z.max 0 k.

Definition round_half_even (a b : Z) : Z :=
  let q := a / b in
  let r := a mod b in
  if 2 * r <? b then q
  else if b <? 2 * r then q + 1
  else if Z.even q then q else q + 1.

(** The double nearest to the integer [z], ties to even. *)
Definition to_double (z : Z) : Z :=
  let k := Z.log2 (Z.abs z) - 52 in
  Z.sgn z * scale (round_half_even (Z.abs z) (scale 1 k)) k.

(** [a + b] on whole doubles: the exact sum, rounded once. *)
Definition add (a b : Z) : Z := to_double (a + b).

(** [x || d] on an optional number: [undefined], [null] and [0] are falsy. *)
Definition num_or (x : option Z) (d : Z) : Z :=
  match x with
  | Some 0 => d
  | Some p => p
  | None => d
  end.

(** [x || d] on an optional string: [undefined], [null] and [''] are falsy. *)
Definition str_or (x : option string) (d : string) : string :=
  match x with
  | Some s => if String.eqb s EmptyString then d else s
  | None => d
  end.

(** [xs.reduce((sum, x) => sum + f(x), 0)] *)
Definition reduce_sum {A} (f : A -> Z) (xs : list A) : Z :=
  fold_left (fun sum x => add sum (f x)) xs 0.

(** *** [toString()] of a scalar

    A scalar that reaches [toString()] in the handlers is a JSON number
    (whole here) or a JSON string.  [Number.prototype.toString] prints the
    decimal with the fewest significant digits that reads back as the same
    double, the closest one if there are several: in full below 10^21, and
    as [d.ddde+n] from there on. *)
Inductive scalar :=
| Num (z : Z)
| Str (s : string).

Definition digits (z : Z) : string := NilZero.string_of_int (Z.to_int z).

(** The decimal with [k] significant digits that reads back as [x], for a
    positive [x] of [n] digits: one of the two multiples of [10^(n-k)]
    around [x], the closer one (the one with an even last digit on a tie)
    when both do. *)
Definition with_digits (x n k : Z) : option Z :=
  let p := 10 ^ Z.max 0 (n - k) in
  let lo := x / p * p in
  let hi := lo + p in
  match to_double lo =? x, to_double hi =? x with
  | true, true =>
      Some (if x - lo <? hi - x then lo
            else if hi - x <? x - lo then hi
            else if Z.even (lo / p) then lo else hi)
  | true, false => Some lo
  | false, true => Some hi
  | false, false => None
  end.

(** Seventeen significant digits tell any two doubles apart. *)
Fixpoint shortest_from (x n k : Z) (more : nat) : Z :=
  match with_digits x n k with
  | Some v => v
  | None =>
      match more with
      | O => x
      | S more' => shortest_from x n (k + 1) more'
      end
  end.

Definition shortest (x : Z) : Z :=
  shortest_from x (Z.of_nat (String.length (digits x))) 1 16.

Fixpoint drop_trailing_zeros (s : string) : string :=
  match s with
  | EmptyString => EmptyString
  | String c rest =>
      match drop_trailing_zeros rest with
      | EmptyString => if Ascii.eqb c "0" then EmptyString else String c EmptyString
      | rest' => String c rest'
      end
  end.

Definition exponent_form (v : Z) : string :=
  let n := Z.of_nat (String.length (digits v)) in
  match drop_trailing_zeros (digits v) with
  | EmptyString => "0"
  | String c EmptyString => String c ("e+" ++ digits (n - 1))
  | String c rest => String c ("." ++ rest ++ "e+" ++ digits (n - 1))
  end.

(** [toString()] of a double that is not negative. *)
Definition number_toString (x : Z) : string :=
  let v := shortest x in
  if v <? 10 ^ 21 then digits v else exponent_form v.

Definition toString (v : scalar) : string :=
  match v with
  | Num z => if z <? 0 then "-" ++ number_toString (- z) else number_toString z
  | Str s => s
  end.

(** *** [sum / length] and [toFixed(1)]

    The quotient of two whole numbers is not whole, so [/] is the binary64
    division: the exact quotient rounded to a 53-bit significand, ties to
    even.  A quotient is returned as a pair [(m, k)] standing for
    [m / 2^k] (for [m * 2^-k] when [k] is negative). *)

(** The exponent [e] with [2^e <= s / n < 2^(e+1)], for positive [s], [n]. *)
Definition binade (s n : Z) : Z :=
  let e0 := Z.log2 s - Z.log2 n in
  if scale s (- e0) <? scale n e0 then e0 - 1 else e0.

Definition div_pos (s n : Z) : Z * Z :=
  let k := 52 - binade s n in
  (round_half_even (scale s k) (scale n (- k)), k).

(** [s / n] for an integer [s] and a positive integer [n]. *)
Definition div (s n : Z) : Z * Z :=
  if s <? 0 then let (m, k) := div_pos (- s) n in (- m, k)
  else div_pos s n.

(** [parseFloat(x.toFixed(1))] for [x = m / 2^k]: [toFixed(1)] takes the
    integer [t] for which [t / 10] is closest to the exact value of [x],
    the larger one on a tie, after moving the sign of a negative [x] in
    front (below 10^21 in magnitude; beyond, it prints an exponent form);
    [parseFloat] reads the digits back.  The result is the number with one
    decimal [t / 10], returned as its count of tenths [t]. *)
Definition toFixed1_pos (m k : Z) : Z :=
  (scale (20 * m) (- k) + scale 1 k) / scale 2 k.

Definition toFixed1 (x : Z * Z) : Z :=
  let (m, k) := x in
  if m <? 0 then - toFixed1_pos (- m) k else toFixed1_pos m k.

(** The same operations computed by the kernel's binary64 arithmetic, to
    compare [to_double], [add] and [div_pos] with (see
    [to_double_is_binary64_rounding], [add_is_binary64_addition] and
    [div_pos_agrees_with_binary64]). *)
Definition binary64_of (z : Z) : spec_float :=
  Prim2SF (PrimFloat.of_uint63 (Uint63.of_Z z)).

Definition binary64_add (a b : Z) : spec_float :=
  Prim2SF (PrimFloat.add (PrimFloat.of_uint63 (Uint63.of_Z a))
                         (PrimFloat.of_uint63 (Uint63.of_Z b))).

Definition binary64_div (s n : Z) : spec_float :=
  Prim2SF (PrimFloat.div (PrimFloat.of_uint63 (Uint63.of_Z s))
                         (PrimFloat.of_uint63 (Uint63.of_Z n))).

Definition same_double (x y : spec_float) : bool :=
  match x, y with
  | S754_finite false m e, S754_finite false m' e' => (Z.pos m =? Z.pos m') && (e =? e')
  | S754_zero false, S754_zero false => true
  | _, _ => false
  end.

(** For [z] below 2^63: the kernel's conversion rounds [z] to the double
    [to_double z], which it converts without rounding. *)
Definition to_double_agrees_with_binary64 (z : Z) : bool :=
  same_double (binary64_of z) (binary64_of (to_double z)).

(** For doubles [a], [b] with a sum below 2^63. *)
Definition add_agrees_with_binary64 (a b : Z) : bool :=
  same_double (binary64_add a b) (binary64_of (add a b)).

Definition agrees_with_binary64 (s n : Z) : bool :=
  let (m, k) := div_pos s n in
  match binary64_div s n with
  | S754_finite false m' e' => (Z.pos m' =? m) && (e' =? - k)
  | _ => false
  end.

End Js.

(** ** Rows of the store's tables

    A row holds the columns the handlers name.  Keys and other identifiers
    travel as JSON text and path segments, so they are strings. *)

Definition key := string.
Definition timestamp := string.
(** An uninterpreted JSON payload ([options], [answers]). *)
Definition json := string.

Module Test.
Record row := {
  id : key;
  title : string;
  description : string;
  question_count : Z;
  total_points : Z;
  created_by : option key;
  is_published : bool;
  (** one decimal, held in tenths: 45 stands for 4.5 *)
  average_rating : Z;
  review_count : Z;
  updated_at : option timestamp
}.
End Test.

Module Question.
Record row := {
  test_id : key;
  question_text : string;
  options : json;
  correct_answer : string;
  points : Z;
  order_index : Z
}.
End Question.

Module Tag.
Record row := {
  id : key;
  name : string;
  is_active : bool
}.
End Tag.

Module TestTag.
Record row := {
  test_id : key;
  tag_id : key
}.
End TestTag.

Module Result.
Record row := {
  test_id : key;
  user_name : option string;
  answers : json;
  score : Z;
  total_questions : option Z;
  percentage : option Z;
  max_score : option Z;
  completed_at : option timestamp
}.
End Result.

Module Review.
Record row := {
  test_id : key;
  rating : Z;
  comment : string;
  user_id : option key;
  is_approved : bool
}.
End Review.

Module User.
Record row := {
  id : key;
  email : string;
  password_hash : string;
  role : string;
  last_login : option timestamp
}.
End User.

Module AdminLog.
Record row := {
  user_id : option key;
  action_type : string;
  description : string
}.
End AdminLog.

Record store := {
  tests : list Test.row;
  questions : list Question.row;
  tags : list Tag.row;
  test_tags : list TestTag.row;
  results : list Result.row;
  test_reviews : list Review.row;
  users : list User.row;
  admin_logs : list AdminLog.row
}.

Definition empty_store : store :=
  {| tests := []; questions := []; tags := []; test_tags := [];
     results := []; test_reviews := []; users := []; admin_logs := [] |}.

(** ** Request bodies *)

Module Payload.
(** One entry of [questions]: [correct_answer] and [points] may be left
    out of the JSON object. *)
Record question := {
  question_text : string;
  options : json;
  correct_answer : option Js.scalar;
  points : option Z
}.
Record tag := { id : key }.
End Payload.

Module NewTest.
Record body := {
  title : string;
  description : string;
  questions : list Payload.question;
  tags : option (list Payload.tag);
  created_by : option key
}.
End NewTest.

Module TestUpdate.
Record body := {
  title : string;
  description : string;
  questions : list Payload.question;
  tags : option (list Payload.tag);
  updated_by : option key
}.
End TestUpdate.

Module NewResult.
Record body := {
  test_id : key;
  user_name : option string;
  answers : json;
  score : Z;
  total_questions : option Z;
  percentage : option Z;
  max_score : option Z
}.
End NewResult.

Module Login.
Record body := { email : string; password : string }.
End Login.

Module NewReview.
Record body := {
  test_id : key;
  user_name : option string;
  rating : Z;
  comment : string
}.
End NewReview.

(** ** Responses *)

Inductive body :=
| TestDetail (test : Test.row) (questions : list Question.row)
             (tags : list (option Tag.row)) (reviews : list Review.row)
| TestWithQuestions (test : Test.row) (questions : list Question.row)
| SuccessTest (data : Test.row)
| Success
| SuccessResult (data : option Result.row)
| ResultRow (data : option Result.row)
| SuccessUser (user : User.row)
| SuccessReview (data : option Review.row)
| Failure (error : string)
| Error (error : string).

Record response := { status : nat; sent : body }.

(** [res.json(b)] and [res.status(s).json(b)] *)
Definition json_ok (b : body) : response := {| status := 200; sent := b |}.
Definition json_status (s : nat) (b : body) : response := {| status := s; sent := b |}.

(** ** The store client *)

Record reply (A : Type) := Reply { data : option A; error : option string }.
Arguments Reply {A} _ _.
Arguments data {A} _.
Arguments error {A} _.

Definition ok {A} (a : A) : reply A := Reply (Some a) None.
Definition failed {A} (message : string) : reply A := Reply None (Some message).

(** [.single()]: exactly one row, or an error and no data. *)
Definition single_error : string :=
  "JSON object requested, multiple (or no) rows returned".

Definition single {A} (rows : list A) : reply A :=
  match rows with
  | [r] => ok r
  | _ => failed single_error
  end.

(** [.order('order_index')]: ascending; rows with equal keys keep their
    stored order. *)
Fixpoint insert_by_order (q : Question.row) (qs : list Question.row) : list Question.row :=
  match qs with
  | [] => [q]
  | q' :: rest =>
      if Question.order_index q' <? Question.order_index q
      then q' :: insert_by_order q rest
      else q :: qs
  end.

Fixpoint order_by_order_index (qs : list Question.row) : list Question.row :=
  match qs with
  | [] => []
  | q :: rest => insert_by_order q (order_by_order_index rest)
  end.

(** A query is a function of the key the store hands out (used by an insert
    into [tests] only) and of the store; it yields the reply and the store
    after the call. *)
Definition query (A : Type) := key -> store -> reply A * store.

Section Setters.
Variable s : store.

Definition set_tests (x : list Test.row) : store :=
  {| tests := x; questions := questions s; tags := tags s; test_tags := test_tags s;
     results := results s; test_reviews := test_reviews s; users := users s;
     admin_logs := admin_logs s |}.
Definition set_questions (x : list Question.row) : store :=
  {| tests := tests s; questions := x; tags := tags s; test_tags := test_tags s;
     results := results s; test_reviews := test_reviews s; users := users s;
     admin_logs := admin_logs s |}.
Definition set_test_tags (x : list TestTag.row) : store :=
  {| tests := tests s; questions := questions s; tags := tags s; test_tags := x;
     results := results s; test_reviews := test_reviews s; users := users s;
     admin_logs := admin_logs s |}.
Definition set_results (x : list Result.row) : store :=
  {| tests := tests s; questions := questions s; tags := tags s; test_tags := test_tags s;
     results := x; test_reviews := test_reviews s; users := users s;
     admin_logs := admin_logs s |}.
Definition set_test_reviews (x : list Review.row) : store :=
  {| tests := tests s; questions := questions s; tags := tags s; test_tags := test_tags s;
     results := results s; test_reviews := x; users := users s;
     admin_logs := admin_logs s |}.
Definition set_users (x : list User.row) : store :=
  {| tests := tests s; questions := questions s; tags := tags s; test_tags := test_tags s;
     results := results s; test_reviews := test_reviews s; users := x;
     admin_logs := admin_logs s |}.
Definition set_admin_logs (x : list AdminLog.row) : store :=
  {| tests := tests s; questions := questions s; tags := tags s; test_tags := test_tags s;
     results := results s; test_reviews := test_reviews s; users := users s;
     admin_logs := x |}.
End Setters.

Module Db.

Definition test_has (i : key) (t : Test.row) : bool := String.eqb (Test.id t) i.
Definition question_of (i : key) (q : Question.row) : bool := String.eqb (Question.test_id q) i.
Definition tag_link_of (i : key) (l : TestTag.row) : bool := String.eqb (TestTag.test_id l) i.
Definition approved_for (i : key) (r : Review.row) : bool :=
  String.eqb (Review.test_id r) i && Bool.eqb (Review.is_approved r) true.

(** Modelled from the spec: the schema of [tests] is not in the source;
    the columns an insert leaves out take the defaults the spec gives the
    derived rating (0 with no review) and no update time. *)
Definition inserted_test (k : key) (title description : string)
           (question_count total_points : Z) (created_by : option key)
           (is_published : bool) : Test.row :=
  {| Test.id := k; Test.title := title; Test.description := description;
     Test.question_count := question_count; Test.total_points := total_points;
     Test.created_by := created_by; Test.is_published := is_published;
     Test.average_rating := 0; Test.review_count := 0; Test.updated_at := None |}.

(** [from('tests').insert([{...}]).select().single()] *)
Definition insert_test (title description : string) (question_count total_points : Z)
           (created_by : option key) (is_published : bool) : query Test.row :=
  fun k s =>
    let t := inserted_test k title description question_count total_points
                           created_by is_published in
    (ok t, set_tests s (tests s ++ [t])).

(** [from('tests').select('*').eq('id', i).single()] *)
Definition select_test (i : key) : query Test.row :=
  fun _ s => (single (filter (test_has i) (tests s)), s).

(** The row [t] after [update({ title, description, question_count,
    total_points, updated_at })]. *)
Definition updated_test (t : Test.row) (title description : string)
           (question_count total_points : Z) (updated_at : timestamp) : Test.row :=
  {| Test.id := Test.id t; Test.title := title; Test.description := description;
     Test.question_count := question_count; Test.total_points := total_points;
     Test.created_by := Test.created_by t; Test.is_published := Test.is_published t;
     Test.average_rating := Test.average_rating t;
     Test.review_count := Test.review_count t;
     Test.updated_at := Some updated_at |}.

(** [from('tests').update({...}).eq('id', i).select().single()]: a reply
    that is not a single row changes nothing. *)
Definition update_test (i : key) (title description : string)
           (question_count total_points : Z) (updated_at : timestamp) : query Test.row :=
  fun _ s =>
    let change (t : Test.row) : Test.row :=
      updated_test t title description question_count total_points updated_at in
    match filter (test_has i) (tests s) with
    | [t] => (ok (change t),
              set_tests s (map (fun r => if test_has i r then change r else r) (tests s)))
    | _ => (failed single_error, s)
    end.

(** The row [t] after [update({ average_rating, review_count })]. *)
Definition rated_test (t : Test.row) (average_rating review_count : Z) : Test.row :=
  {| Test.id := Test.id t; Test.title := Test.title t;
     Test.description := Test.description t;
     Test.question_count := Test.question_count t;
     Test.total_points := Test.total_points t;
     Test.created_by := Test.created_by t; Test.is_published := Test.is_published t;
     Test.average_rating := average_rating;
     Test.review_count := review_count;
     Test.updated_at := Test.updated_at t |}.

(** [from('tests').update({ average_rating, review_count }).eq('id', i)] *)
Definition update_rating (i : key) (average_rating review_count : Z) : query unit :=
  fun _ s =>
    (ok tt,
     set_tests s (map (fun r => if test_has i r
                                then rated_test r average_rating review_count
                                else r) (tests s))).

(** [from('tests').delete().eq('id', i)].
    Modelled from the spec: the cascade to questions and tag links is the
    store's (the handler's comment and the spec both rely on it). *)
Definition delete_test (i : key) : query unit :=
  fun _ s =>
    (ok tt,
     {| tests := filter (fun t => negb (test_has i t)) (tests s);
        questions := filter (fun q => negb (question_of i q)) (questions s);
        tags := tags s;
        test_tags := filter (fun l => negb (tag_link_of i l)) (test_tags s);
        results := results s; test_reviews := test_reviews s; users := users s;
        admin_logs := admin_logs s |}).

(** [from('questions').select('*').eq('test_id', i).order('order_index')] *)
Definition select_questions (i : key) : query (list Question.row) :=
  fun _ s => (ok (order_by_order_index (filter (question_of i) (questions s))), s).

(** [from('questions').insert(rows)] *)
Definition insert_questions (rows : list Question.row) : query unit :=
  fun _ s => (ok tt, set_questions s (questions s ++ rows)).

(** [from('questions').delete().eq('test_id', i)] *)
Definition delete_questions (i : key) : query unit :=
  fun _ s => (ok tt, set_questions s (filter (fun q => negb (question_of i q)) (questions s))).

(** [from('test_tags').select(...).eq('test_id', i)], selecting the
    embedded [tags] row: each link with the tag row it points to. *)
Definition select_test_tags (i : key) : query (list (option Tag.row)) :=
  fun _ s =>
    (ok (map (fun l => find (fun t => String.eqb (Tag.id t) (TestTag.tag_id l)) (tags s))
             (filter (tag_link_of i) (test_tags s))), s).

Definition insert_test_tags (rows : list TestTag.row) : query unit :=
  fun _ s => (ok tt, set_test_tags s (test_tags s ++ rows)).

Definition delete_test_tags (i : key) : query unit :=
  fun _ s => (ok tt, set_test_tags s (filter (fun l => negb (tag_link_of i l)) (test_tags s))).

(** [from('admin_logs').insert([{...}])] *)
Definition insert_log (l : AdminLog.row) : query unit :=
  fun _ s => (ok tt, set_admin_logs s (admin_logs s ++ [l])).

(** [from('results').insert([{...}]).select()] *)
Definition insert_result (r : Result.row) : query (list Result.row) :=
  fun _ s => (ok [r], set_results s (results s ++ [r])).

(** [from('test_reviews').insert([{...}]).select()] *)
Definition insert_review (r : Review.row) : query (list Review.row) :=
  fun _ s => (ok [r], set_test_reviews s (test_reviews s ++ [r])).

(** [from('test_reviews').select('rating').eq('test_id', i).eq('is_approved', true)] *)
Definition select_ratings (i : key) : query (list Z) :=
  fun _ s => (ok (map Review.rating (filter (approved_for i) (test_reviews s))), s).

(** [from('test_reviews').select('*').eq('test_id', i).eq('is_approved', true)] *)
Definition select_reviews (i : key) : query (list Review.row) :=
  fun _ s => (ok (filter (approved_for i) (test_reviews s)), s).

Definition is_admin (email password : string) (u : User.row) : bool :=
  String.eqb (User.email u) email
  && String.eqb (User.password_hash u) password
  && String.eqb (User.role u) "admin".

(** [from('users').select('*').eq('email', e).eq('password_hash', p)
     .eq('role', 'admin').single()] *)
Definition select_admin (email password : string) : query User.row :=
  fun _ s => (single (filter (is_admin email password) (users s)), s).

(** [from('users').update({ last_login }).eq('id', i)] *)
Definition update_last_login (i : key) (last_login : timestamp) : query unit :=
  fun _ s =>
    let change (u : User.row) : User.row :=
      {| User.id := User.id u; User.email := User.email u;
         User.password_hash := User.password_hash u; User.role := User.role u;
         User.last_login := Some last_login |} in
    (ok tt, set_users s (map (fun u => if String.eqb (User.id u) i then change u else u)
                             (users s))).

End Db.

(** ** Handlers as programs over the store *)

(** What the store does with one call: it carries it out (handing out
    [fresh] if the call inserts a test) or refuses it with an error. *)
Inductive outcome :=
| Done (fresh : key)
| Refused (message : string).

Record world := { db : store; calls : nat }.

Inductive completion (A : Type) :=
| Return (a : A)
| Throw (message : string).
Arguments Return {A} _.
Arguments Throw {A} _.

Definition js (A : Type) := world -> completion A * world.

Definition ret {A} (a : A) : js A := fun w => (Return a, w).

Definition throw {A} (message : string) : js A := fun w => (Throw message, w).

Definition bind {A B} (c : js A) (k : A -> js B) : js B :=
  fun w =>
    match c w with
    | (Return a, w') => k a w'
    | (Throw m, w') => (Throw m, w')
    end.

Notation "x <- c ;; k" := (bind c (fun x => k))
  (at level 61, c at next level, right associativity).
Notation "c ;;; k" := (bind c (fun _ => k))
  (at level 61, right associativity).

(** [if (error) throw error], then the data *)
Definition data_or_throw {A} (r : reply A) : js A :=
  match error r with
  | Some m => throw m
  | None =>
      match data r with
      | Some a => ret a
      | None => throw "Cannot read properties of null"
      end
  end.

(** [if (error) throw error] for a call whose data is not used *)
Definition throw_on_error {A} (r : reply A) : js unit :=
  match error r with
  | Some m => throw m
  | None => ret tt
  end.

(** [data || []] *)
Definition rows_or_empty {A} (r : reply (list A)) : list A :=
  match data r with
  | Some rows => rows
  | None => []
  end.

(** [questions.map((q, index) => ({ test_id, ..., order_index: index }))]:
    [q.correct_answer.toString()] throws a TypeError on a question that has
    no [correct_answer]. *)
Definition question_row (test_id : key) (q : Payload.question) (index : Z)
  : option Question.row :=
  match Payload.correct_answer q with
  | Some a =>
      Some {| Question.test_id := test_id;
              Question.question_text := Payload.question_text q;
              Question.options := Payload.options q;
              Question.correct_answer := Js.toString a;
              Question.points := Js.num_or (Payload.points q) 1;
              Question.order_index := index |}
  | None => None
  end.

Fixpoint question_rows (test_id : key) (index : Z) (qs : list Payload.question)
  : option (list Question.row) :=
  match qs with
  | [] => Some []
  | q :: rest =>
      match question_row test_id q index with
      | Some r =>
          match question_rows test_id (index + 1) rest with
          | Some rs => Some (r :: rs)
          | None => None
          end
      | None => None
      end
  end.

Definition questionsWithTestId (test_id : key) (qs : list Payload.question)
  : js (list Question.row) :=
  match question_rows test_id 0 qs with
  | Some rows => ret rows
  | None => throw "Cannot read properties of undefined (reading 'toString')"
  end.

(** [tags.map(tag => ({ test_id, tag_id: tag.id }))] *)
Definition testTags (test_id : key) (ts : list Payload.tag) : list TestTag.row :=
  map (fun tag => {| TestTag.test_id := test_id; TestTag.tag_id := Payload.id tag |}) ts.

Definition total_points_of (qs : list Payload.question) : Z :=
  Js.reduce_sum (fun q => Js.num_or (Payload.points q) 1) qs.

(** The object [post_reviews] inserts: [{ test_id, rating, comment,
    user_id: null, is_approved: true }]; [user_name] is not stored. *)
Definition review_of (req : NewReview.body) : Review.row :=
  {| Review.test_id := NewReview.test_id req;
     Review.rating := NewReview.rating req;
     Review.comment := NewReview.comment req;
     Review.user_id := None;
     Review.is_approved := true |}.

Section Handlers.

(** The store's answer to the n-th call of the request being served. *)
Variable oracle : nat -> outcome.

(** [await supabase.from(...)...]: the call never throws; a refused call
    leaves the store as it was and replies with the error. *)
Definition call {A} (q : query A) : js (reply A) :=
  fun w =>
    match oracle (calls w) with
    | Done k =>
        let (r, s) := q k (db w) in
        (Return r, {| db := s; calls := S (calls w) |})
    | Refused m =>
        (Return (failed m), {| db := db w; calls := S (calls w) |})
    end.

(** [try { ... } catch (error) { res.status(500).json(on_error(error.message)) }],
    run on a store; the result is the response and the store left behind. *)
Definition handle (on_error : string -> body) (program : js response) (s : store)
  : response * store :=
  match program {| db := s; calls := 0 |} with
  | (Return r, w) => (r, db w)
  | (Throw m, w) => (json_status 500 (on_error m), db w)
  end.

(** *** server.js *)

(** [app.get('/api/tests/:id')]: the three reads of [Promise.all] are
    issued in the order written; a refused one leaves an empty list. *)
Definition get_test (id : key) : store -> response * store :=
  handle Error (
    r <- call (Db.select_test id) ;;
    test <- data_or_throw r ;;
    questions <- call (Db.select_questions id) ;;
    tags <- call (Db.select_test_tags id) ;;
    reviews <- call (Db.select_reviews id) ;;
    ret (json_ok (TestDetail test (rows_or_empty questions) (rows_or_empty tags)
                             (rows_or_empty reviews)))).

(** [app.post('/api/tests')] *)
Definition post_tests (req : NewTest.body) : store -> response * store :=
  let title := NewTest.title req in
  let description := NewTest.description req in
  let questions := NewTest.questions req in
  let tags := NewTest.tags req in
  let created_by := NewTest.created_by req in
  handle Failure (
    r <- call (Db.insert_test title description
                 (Z.of_nat (List.length questions)) (total_points_of questions)
                 created_by true) ;;
    test <- data_or_throw r ;;
    rows <- questionsWithTestId (Test.id test) questions ;;
    r <- call (Db.insert_questions rows) ;;
    throw_on_error r ;;;
    match tags with
    | Some (tag :: more) =>
        r <- call (Db.insert_test_tags (testTags (Test.id test) (tag :: more))) ;;
        throw_on_error r
    | _ => ret tt
    end ;;;
    call (Db.insert_log
            {| AdminLog.user_id := created_by;
               AdminLog.action_type := "CREATE_TEST";
               AdminLog.description := ("Создан тест: " ++ title)%string |}) ;;;
    ret (json_ok (SuccessTest test))).

(** [app.put('/api/tests/:id')] *)
Definition put_test (now : timestamp) (id : key) (req : TestUpdate.body)
  : store -> response * store :=
  let title := TestUpdate.title req in
  let description := TestUpdate.description req in
  let questions := TestUpdate.questions req in
  let tags := TestUpdate.tags req in
  let updated_by := TestUpdate.updated_by req in
  handle Failure (
    r <- call (Db.update_test id title description
                 (Z.of_nat (List.length questions)) (total_points_of questions) now) ;;
    test <- data_or_throw r ;;
    call (Db.delete_questions id) ;;;
    rows <- questionsWithTestId id questions ;;
    r <- call (Db.insert_questions rows) ;;
    throw_on_error r ;;;
    call (Db.delete_test_tags id) ;;;
    match tags with
    | Some (tag :: more) =>
        r <- call (Db.insert_test_tags (testTags id (tag :: more))) ;;
        throw_on_error r
    | _ => ret tt
    end ;;;
    call (Db.insert_log
            {| AdminLog.user_id := updated_by;
               AdminLog.action_type := "UPDATE_TEST";
               AdminLog.description := ("Обновлен тест: " ++ title)%string |}) ;;;
    ret (json_ok (SuccessTest test))).

(** [app.delete('/api/tests/:id')] with body [{ user_id }] *)
Definition delete_test (id : key) (user_id : option key) : store -> response * store :=
  handle Failure (
    test <- call (Db.select_test id) ;;
    r <- call (Db.delete_test id) ;;
    throw_on_error r ;;;
    call (Db.insert_log
            {| AdminLog.user_id := user_id;
               AdminLog.action_type := "DELETE_TEST";
               AdminLog.description :=
                 ("Удален тест: "
                    ++ Js.str_or (option_map Test.title (data test)) id)%string |}) ;;;
    ret (json_ok Success)).

(** [app.post('/api/results')] *)
Definition post_results (req : NewResult.body) : store -> response * store :=
  handle Failure (
    r <- call (Db.insert_result
                 {| Result.test_id := NewResult.test_id req;
                    Result.user_name := Some (Js.str_or (NewResult.user_name req) "Anonymous");
                    Result.answers := NewResult.answers req;
                    Result.score := NewResult.score req;
                    Result.total_questions := NewResult.total_questions req;
                    Result.percentage := NewResult.percentage req;
                    Result.max_score := None;
                    Result.completed_at := None |}) ;;
    data <- data_or_throw r ;;
    ret (json_ok (SuccessResult (hd_error data)))).

(** [app.post('/api/admin/login')] *)
Definition admin_login (now : timestamp) (req : Login.body) : store -> response * store :=
  handle Failure (
    r <- call (Db.select_admin (Login.email req) (Login.password req)) ;;
    match error r, data r with
    | None, Some user =>
        call (Db.update_last_login (User.id user) now) ;;;
        ret (json_ok (SuccessUser user))
    | _, _ =>
        ret (json_status 401 (Failure "Неверные учетные данные"))
    end).

(** [async function updateTestRating(testId)] *)
Definition updateTestRating (testId : key) : js unit :=
  r <- call (Db.select_ratings testId) ;;
  match data r with
  | Some (rating :: more) =>
      let reviews := rating :: more in
      let average_rating :=
        Js.div (Js.reduce_sum (fun r => r) reviews) (Z.of_nat (List.length reviews)) in
      call (Db.update_rating testId (Js.toFixed1 average_rating)
                             (Z.of_nat (List.length reviews))) ;;;
      ret tt
  | _ => ret tt
  end.

(** [app.post('/api/reviews')] *)
Definition post_reviews (req : NewReview.body) : store -> response * store :=
  let test_id := NewReview.test_id req in
  handle Failure (
    r <- call (Db.insert_review (review_of req)) ;;
    data <- data_or_throw r ;;
    updateTestRating test_id ;;;
    ret (json_ok (SuccessReview (hd_error data)))).

End Handlers.

(** *** The minimal route set (src/unnamed/part_000) *)

Module Minimal.
Section Handlers.

Variable oracle : nat -> outcome.

(** [app.get('/api/tests/:id')] *)
Definition get_test (id : key) : store -> response * store :=
  handle Error (
    r <- call oracle (Db.select_test id) ;;
    test <- data_or_throw r ;;
    r <- call oracle (Db.select_questions id) ;;
    throw_on_error r ;;;
    ret (json_ok (TestWithQuestions test (rows_or_empty r)))).

(** [app.post('/api/results')] *)
Definition post_results (now : timestamp) (req : NewResult.body)
  : store -> response * store :=
  handle Error (
    r <- call oracle (Db.insert_result
                 {| Result.test_id := NewResult.test_id req;
                    Result.user_name := NewResult.user_name req;
                    Result.answers := NewResult.answers req;
                    Result.score := NewResult.score req;
                    Result.total_questions := None;
                    Result.percentage := None;
                    Result.max_score := NewResult.max_score req;
                    Result.completed_at := Some now |}) ;;
    data <- data_or_throw r ;;
    ret (json_ok (ResultRow (hd_error data)))).

End Handlers.
End Minimal.

(** ** Vocabulary of the properties *)

(** The store carried the call out. *)
Definition carried_out (o : outcome) : Prop := exists k, o = Done k.

(** An oracle that carries every call out, handing out [k]. *)
Definition reliable (k : key) : nat -> outcome := fun _ => Done k.

(** [oracle], except that the n-th call gets the answer [o]. *)
Definition answering (n : nat) (o : outcome) (oracle : nat -> outcome) : nat -> outcome :=
  fun i => if Nat.eqb i n then o else oracle i.

Definition sum_list (l : list Z) : Z := fold_right Z.add 0 l.

(** [tags && tags.length > 0] *)
Definition has_tags (tags : option (list Payload.tag)) : bool :=
  match tags with
  | Some (_ :: _) => true
  | _ => false
  end.

(** The ratings of the approved reviews a store holds for a test. *)
Definition approved_ratings (s : store) (i : key) : list Z :=
  map Review.rating (filter (Db.approved_for i) (test_reviews s)).

(** [t / 10] is a one-decimal number nearest to the exact quotient [s / n]:
    it differs from it by at most 0.05. *)
Definition nearest_tenth (t s n : Z) : Prop :=
  (2 * t - 1) * n <= 20 * s <= (2 * t + 1) * n.

(** The points a question declares, in the spec's words: 1 when the field
    is left out. *)
Definition declared_points (q : Payload.question) : Z :=
  match Payload.points q with
  | Some p => p
  | None => 1
  end.

(** The points a question counts for: those it declares, and 1 when it
    declares none or declares 0. *)
Definition counted_points (q : Payload.question) : Z :=
  if declared_points q =? 0 then 1 else declared_points q.

(** The numbers of [l] are added without rounding: their magnitudes add up
    to at most 2^53, so no partial sum leaves the range in which every
    whole number is a double. *)
Definition adds_exactly (l : list Z) : Prop := sum_list (map Z.abs l) <= 2 ^ 53.

(** [text] is the submitted answer [a] as text: a string as it is, a whole
    number below 2^53 in magnitude as its decimal digits. *)
Definition stored_as_text (a : Js.scalar) (text : string) : Prop :=
  match a with
  | Js.Str s => text = s
  | Js.Num z => Z.abs z < 2 ^ 53 -> text = NilZero.string_of_int (Z.to_int z)
  end.

(** The row [r] is the submitted question [q] stored under the test [id]
    at the position [index]. *)
Definition submitted_as (id : key) (index : Z) (q : Payload.question) (r : Question.row)
  : Prop :=
  Question.test_id r = id
  /\ Question.question_text r = Payload.question_text q
  /\ Question.options r = Payload.options q
  /\ (exists a, Payload.correct_answer q = Some a
                /\ Question.correct_answer r = Js.toString a
                /\ stored_as_text a (Question.correct_answer r))
  /\ Question.points r = counted_points q
  /\ Question.order_index r = index.

(** The list is strictly ascending. *)
Fixpoint ascending (l : list Z) : Prop :=
  match l with
  | [] => True
  | x :: rest =>
      match rest with
      | [] => True
      | y :: _ => x < y /\ ascending rest
      end
  end.

(** No user of the store matches the credentials with the admin role. *)
Definition no_admin_match (s : store) (email password : string) : Prop :=
  forall u, In u (users s) ->
    ~ (User.email u = email /\ User.password_hash u = password /\ User.role u = "admin").

(** The body of every failed login. *)
Definition unauthorized : response :=
  json_status 401 (Failure "Неверные учетные данные").


(** The audit-log insert is the last call of a handler; its position among
    the calls of the request depends on whether tag links are inserted. *)
Definition create_audit_call (req : NewTest.body) : nat :=
  if has_tags (NewTest.tags req) then 3%nat else 2%nat.

Definition update_audit_call (req : TestUpdate.body) : nat :=
  if has_tags (TestUpdate.tags req) then 5%nat else 4%nat.

Definition delete_audit_call : nat := 2%nat.

(** ** Sample requests and stores *)

Module Sample.

Definition capital : Payload.question :=
  {| Payload.question_text := "Capital of France?";
     Payload.options := "[Paris, Rome]";
     Payload.correct_answer := Some (Js.Num 0);
     Payload.points := None |}.

Definition sum : Payload.question :=
  {| Payload.question_text := "2 + 2?";
     Payload.options := "[3, 4]";
     Payload.correct_answer := Some (Js.Str "4");
     Payload.points := Some 2 |}.

(** A question that declares zero points. *)
Definition warmup : Payload.question :=
  {| Payload.question_text := "Ready?";
     Payload.options := "[yes]";
     Payload.correct_answer := Some (Js.Num 0);
     Payload.points := Some 0 |}.

Definition quiz : NewTest.body :=
  {| NewTest.title := "Quiz";
     NewTest.description := "two questions";
     NewTest.questions := [capital; sum];
     NewTest.tags := Some [{| Payload.id := "geo" |}];
     NewTest.created_by := Some "admin-1" |}.

Definition warmup_quiz : NewTest.body :=
  {| NewTest.title := "Warm-up";
     NewTest.description := "one question worth nothing";
     NewTest.questions := [warmup];
     NewTest.tags := None;
     NewTest.created_by := Some "admin-1" |}.

Definition revision : TestUpdate.body :=
  {| TestUpdate.title := "Quiz, revised";
     TestUpdate.description := "one question";
     TestUpdate.questions := [sum];
     TestUpdate.tags := None;
     TestUpdate.updated_by := Some "admin-1" |}.

Definition admin : User.row :=
  {| User.id := "admin-1"; User.email := "root@example.org";
     User.password_hash := "secret"; User.role := "admin";
     User.last_login := None |}.

(** The store after [quiz] was created under the key [t1]. *)
Definition with_quiz : store :=
  {| tests := [Db.inserted_test "t1" "Quiz" "two questions" 2 3 (Some "admin-1") true];
     questions :=
       [{| Question.test_id := "t1"; Question.question_text := "Capital of France?";
           Question.options := "[Paris, Rome]"; Question.correct_answer := "0";
           Question.points := 1; Question.order_index := 0 |};
        {| Question.test_id := "t1"; Question.question_text := "2 + 2?";
           Question.options := "[3, 4]"; Question.correct_answer := "4";
           Question.points := 2; Question.order_index := 1 |}];
     tags := [{| Tag.id := "geo"; Tag.name := "Geography"; Tag.is_active := true |}];
     test_tags := [{| TestTag.test_id := "t1"; TestTag.tag_id := "geo" |}];
     results := [];
     test_reviews := [];
     users := [admin];
     admin_logs := [] |}.

(** The store refuses the n-th call and carries the others out. *)
Definition refusing (n : nat) : nat -> outcome :=
  answering n (Refused "connection lost") (reliable "t1").

(** A test whose two reviews were both taken out of approval after its
    rating had been written. *)
Definition rated : Test.row :=
  {| Test.id := "t1"; Test.title := "Quiz"; Test.description := "two questions";
     Test.question_count := 2; Test.total_points := 3;
     Test.created_by := Some "admin-1"; Test.is_published := true;
     Test.average_rating := 45; Test.review_count := 2; Test.updated_at := None |}.

Definition moderated : store :=
  {| tests := [rated];
     questions := [];
     tags := [];
     test_tags := [];
     results := [];
     test_reviews :=
       [{| Review.test_id := "t1"; Review.rating := 4; Review.comment := "fine";
           Review.user_id := None; Review.is_approved := false |};
        {| Review.test_id := "t1"; Review.rating := 5; Review.comment := "great";
           Review.user_id := None; Review.is_approved := false |}];
     users := [];
     admin_logs := [] |}.

Definition praise : NewReview.body :=
  {| NewReview.test_id := "t1"; NewReview.user_name := Some "Ann";
     NewReview.rating := 5; NewReview.comment := "great" |}.

Definition attempt : NewResult.body :=
  {| NewResult.test_id := "t1"; NewResult.user_name := None;
     NewResult.answers := "[0, 1]"; NewResult.score := 3;
     NewResult.total_questions := Some 2; NewResult.percentage := Some 100;
     NewResult.max_score := Some 3 |}.



End Sample.

(** ** Vocabulary of the further properties *)

(** Rows in ascending [order_index], equal keys allowed. *)
Definition by_order_index (a b : Question.row) : Prop :=
  Question.order_index a <= Question.order_index b.

(** The message of the TypeError that [q.correct_answer.toString()] throws
    on a question without [correct_answer]. *)
Definition missing_answer_error : string :=
  "Cannot read properties of undefined (reading 'toString')".

(** A stored result carries a name, and not the empty one. *)
Definition named (r : Result.row) : Prop :=
  exists n, Result.user_name r = Some n /\ n <> EmptyString.

(** The user row [b] is the row [a] after the login of [u] at [now] was
    stamped: [last_login] is set on a row under the id of [u], and every
    other column of every row is as it was. *)
Definition stamped (u : User.row) (now : timestamp) (a b : User.row) : Prop :=
  User.id b = User.id a
  /\ User.email b = User.email a
  /\ User.password_hash b = User.password_hash a
  /\ User.role b = User.role a
  /\ (User.id a = User.id u -> User.last_login b = Some now)
  /\ (User.id a <> User.id u -> User.last_login b = User.last_login a).

(** The tags a handler links: [tags] when it is a non-empty array. *)
Definition tags_or_empty (tags : option (list Payload.tag)) : list Payload.tag :=
  match tags with
  | Some ts => ts
  | None => []
  end.

(** ** Further sample requests and stores *)

Module More.

(** A question whose [correct_answer] was left out. *)
Definition unanswered : Payload.question :=
  {| Payload.question_text := "Largest ocean?";
     Payload.options := "[Pacific, Atlantic]";
     Payload.correct_answer := None;
     Payload.points := Some 1 |}.

Definition unanswered_quiz : NewTest.body :=
  {| NewTest.title := "Oceans";
     NewTest.description := "second question has no answer";
     NewTest.questions := [Sample.capital; unanswered];
     NewTest.tags := None;
     NewTest.created_by := Some "admin-1" |}.

Definition unanswered_revision : TestUpdate.body :=
  {| TestUpdate.title := "Quiz, revised";
     TestUpdate.description := "question without answer";
     TestUpdate.questions := [unanswered];
     TestUpdate.tags := None;
     TestUpdate.updated_by := Some "admin-1" |}.

(** A second admin row with the credentials of [Sample.admin]. *)
Definition admin_twin : User.row :=
  {| User.id := "admin-2"; User.email := "root@example.org";
     User.password_hash := "secret"; User.role := "admin";
     User.last_login := None |}.

Definition two_admins : store :=
  {| tests := []; questions := []; tags := []; test_tags := [];
     results := []; test_reviews := [];
     users := [Sample.admin; admin_twin];
     admin_logs := [] |}.

(** A submission whose [user_name] is the empty string. *)
Definition nameless_attempt : NewResult.body :=
  {| NewResult.test_id := "t1"; NewResult.user_name := Some EmptyString;
     NewResult.answers := "[0, 1]"; NewResult.score := 3;
     NewResult.total_questions := Some 2; NewResult.percentage := Some 100;
     NewResult.max_score := Some 3 |}.

(** Two results of the minimal route set for the test [t1], the older one
    stored first. *)
Definition two_attempts : store :=
  {| tests := []; questions := []; tags := []; test_tags := [];
     results :=
       [{| Result.test_id := "t1"; Result.user_name := Some "Ann";
           Result.answers := "[0, 1]"; Result.score := 3;
           Result.total_questions := None; Result.percentage := None;
           Result.max_score := Some 10;
           Result.completed_at := Some "2026-01-01T10:00:00.000Z" |};
        {| Result.test_id := "t1"; Result.user_name := Some "Bob";
           Result.answers := "[1, 1]"; Result.score := 7;
           Result.total_questions := None; Result.percentage := None;
           Result.max_score := Some 10;
           Result.completed_at := Some "2026-02-01T10:00:00.000Z" |}];
     test_reviews := []; users := []; admin_logs := [] |}.

(** A store with a published test and an unpublished one. *)
Definition with_draft : store :=
  {| tests :=
       [Db.inserted_test "t1" "Quiz" "two questions" 2 3 (Some "admin-1") true;
        Db.inserted_test "t2" "Draft" "not yet visible" 0 0 (Some "admin-1") false];
     questions := []; tags := []; test_tags := [];
     results := []; test_reviews := []; users := []; admin_logs := [] |}.

(** A review for a test id the store does not hold. *)
Definition stray_review : NewReview.body :=
  {| NewReview.test_id := "t9"; NewReview.user_name := Some "Ann";
     NewReview.rating := 5; NewReview.comment := "great" |}.

End More.

(** ** The list routes

    The routes that return arrays are read-only.  Rows do not hold
    [created_at] here, and the order of names is the store's collation, so
    the order the store returns rows in for [.order('created_at', ...)] and
    [.order('name')] is an argument of the query; [.order('completed_at',
    { ascending: false })] is computed from the column: later timestamps
    first, rows without one before the others.  Timestamps are compared as
    text, which is their order in time for the form [toISOString] writes. *)

Module Listed.
(** One element of the array server.js returns for GET /api/tests:
    [{ ...test, questions, tags, average_rating, review_count }]. *)
Record entry := {
  test : Test.row;
  questions : list Question.row;
  tags : list (option Tag.row)
}.
End Listed.

Inductive listing :=
| TestEntries (entries : list Listed.entry)
| TestRows (rows : list Test.row)
| ResultRows (rows : list Result.row)
| JoinedResults (rows : list (Result.row * option (string * string)))
| TagRows (rows : list Tag.row)
| ListError (error : string).

Record list_response := { list_status : nat; listed : listing }.

Definition list_ok (l : listing) : list_response := {| list_status := 200; listed := l |}.

(** [completed_at] of [a] sorts before that of [b] in descending order. *)
Definition later_or_equal (a b : Result.row) : bool :=
  match Result.completed_at a, Result.completed_at b with
  | None, _ => true
  | Some _, None => false
  | Some x, Some y => String.leb y x
  end.

Fixpoint insert_by_completed (r : Result.row) (rs : list Result.row) : list Result.row :=
  match rs with
  | [] => [r]
  | r' :: rest =>
      if later_or_equal r r'
      then r :: rs
      else r' :: insert_by_completed r rest
  end.

Fixpoint order_by_completed_desc (rs : list Result.row) : list Result.row :=
  match rs with
  | [] => []
  | r :: rest => insert_by_completed r (order_by_completed_desc rest)
  end.

Module Reads.

(** [from('tests').select('*').eq('is_published', true)
     .order('created_at', { ascending: false })] *)
Definition select_published (newest_first : list Test.row -> list Test.row)
  : query (list Test.row) :=
  fun _ s => (ok (newest_first (filter Test.is_published (tests s))), s).

(** [from('tests').select('*').order('created_at', { ascending: false })] *)
Definition select_tests (newest_first : list Test.row -> list Test.row)
  : query (list Test.row) :=
  fun _ s => (ok (newest_first (tests s)), s).

(** [from('results').select('*').eq('test_id', i)
     .order('completed_at', { ascending: false })] *)
Definition select_results_of (i : key) : query (list Result.row) :=
  fun _ s =>
    (ok (order_by_completed_desc
           (filter (fun r => String.eqb (Result.test_id r) i) (results s))), s).

(** [from('results').select(...).order('created_at', { ascending: false })],
    selecting every column and the embedded [tests (title, description)]:
    each result with the title and description of its test, or null. *)
Definition select_results_joined (newest_first : list Result.row -> list Result.row)
  : query (list (Result.row * option (string * string))) :=
  fun _ s =>
    (ok (map (fun r =>
                (r, option_map (fun t => (Test.title t, Test.description t))
                               (find (Db.test_has (Result.test_id r)) (tests s))))
             (newest_first (results s))), s).

(** [from('tags').select('*').eq('is_active', true).order('name')] *)
Definition select_active_tags (by_name : list Tag.row -> list Tag.row)
  : query (list Tag.row) :=
  fun _ s => (ok (by_name (filter Tag.is_active (tags s))), s).

End Reads.

(** [try { ... res.json(...) } catch (error) { res.status(500).json({ error:
    error.message }) }] for a route that returns an array. *)
Definition handle_list (program : js list_response) (s : store) : list_response * store :=
  match program {| db := s; calls := 0 |} with
  | (Return r, w) => (r, db w)
  | (Throw m, w) => ({| list_status := 500; listed := ListError m |}, db w)
  end.

(** [await Promise.all(xs.map(f))] for an [f] that only reads.  The calls
    are numbered one element after the other; the source starts the
    elements together, which gives a call another number and changes
    nothing else, since no call writes and the results keep the order of
    [xs]. *)
Fixpoint for_each {A B} (f : A -> js B) (xs : list A) : js (list B) :=
  match xs with
  | [] => ret []
  | x :: rest =>
      b <- f x ;;
      bs <- for_each f rest ;;
      ret (b :: bs)
  end.

Section ListHandlers.

Variable oracle : nat -> outcome.

(** The function mapped over the tests by GET /api/tests in server.js:
    the rating is computed from the approved reviews read now, 0 when there
    is none or the read fails, and replaces the stored columns in the
    response. *)
Definition testWithDetails (test : Test.row) : js Listed.entry :=
  questions <- call oracle (Db.select_questions (Test.id test)) ;;
  tags <- call oracle (Db.select_test_tags (Test.id test)) ;;
  reviews <- call oracle (Db.select_ratings (Test.id test)) ;;
  let average_rating :=
    match data reviews with
    | Some (rating :: more) =>
        Js.div (Js.reduce_sum (fun r => r) (rating :: more))
               (Z.of_nat (List.length (rating :: more)))
    | _ => (0, 0)
    end in
  let review_count :=
    match data reviews with
    | Some rows => Z.of_nat (List.length rows)
    | None => 0
    end in
  ret {| Listed.test := Db.rated_test test (Js.toFixed1 average_rating) review_count;
         Listed.questions := rows_or_empty questions;
         Listed.tags := rows_or_empty tags |}.

(** [app.get('/api/tests')] in server.js *)
Definition get_tests (newest_first : list Test.row -> list Test.row)
  : store -> list_response * store :=
  handle_list (
    r <- call oracle (Reads.select_published newest_first) ;;
    tests <- data_or_throw r ;;
    testsWithDetails <- for_each testWithDetails tests ;;
    ret (list_ok (TestEntries testsWithDetails))).

(** [app.get('/api/results')] in server.js *)
Definition get_results (newest_first : list Result.row -> list Result.row)
  : store -> list_response * store :=
  handle_list (
    r <- call oracle (Reads.select_results_joined newest_first) ;;
    data <- data_or_throw r ;;
    ret (list_ok (JoinedResults data))).

(** [app.get('/api/tags')] *)
Definition get_tags (by_name : list Tag.row -> list Tag.row)
  : store -> list_response * store :=
  handle_list (
    r <- call oracle (Reads.select_active_tags by_name) ;;
    data <- data_or_throw r ;;
    ret (list_ok (TagRows data))).

(** [app.get('/api/tests')] in the minimal route set *)
Definition minimal_get_tests (newest_first : list Test.row -> list Test.row)
  : store -> list_response * store :=
  handle_list (
    r <- call oracle (Reads.select_tests newest_first) ;;
    data <- data_or_throw r ;;
    ret (list_ok (TestRows data))).

(** [app.get('/api/results/:test_id')] in the minimal route set *)
Definition minimal_get_results (test_id : key) : store -> list_response * store :=
  handle_list (
    r <- call oracle (Reads.select_results_of test_id) ;;
    data <- data_or_throw r ;;
    ret (list_ok (ResultRows data))).

End ListHandlers.

(** Results in descending [completed_at], rows without one first. *)
Definition by_completed_desc (a b : Result.row) : Prop := later_or_equal a b = true.

(** What an entry of GET /api/tests shows for the test [t] of the store
    [s] when its reads are carried out: the row [t] with the rating columns
    computed from the approved reviews, and the test's questions in
    order. *)
Definition shown_for (s : store) (t : Test.row) (e : Listed.entry) : Prop :=
  let rs := approved_ratings s (Test.id t) in
  Listed.test e = Db.rated_test t (Test.average_rating (Listed.test e))
                                (Z.of_nat (List.length rs))
  /\ Test.review_count (Listed.test e) = Z.of_nat (List.length rs)
  /\ Listed.questions e
     = order_by_order_index (filter (Db.question_of (Test.id t)) (questions s))
  /\ (Forall (fun r => 0 <= r) rs -> 20 * sum_list rs < 2 ^ 53 ->
      match rs with
      | [] => Test.average_rating (Listed.test e) = 0
      | _ :: _ => nearest_tenth (Test.average_rating (Listed.test e)) (sum_list rs)
                                (Z.of_nat (List.length rs))
      end).

(** * Properties *)

(** ** Arithmetic of the average *)

Module JsFacts.

(** *** Rounding to a double and addition *)

Lemma round_half_even_one a : Js.round_half_even a 1 = a.
Proof.
  unfold Js.round_half_even. rewrite Z.div_1_r, Z.mod_1_r. reflexivity.
Qed.

Lemma round_half_even_lower a b : a / b <= Js.round_half_even a b.
Proof.
  unfold Js.round_half_even.
  destruct (2 * (a mod b) <? b); [lia |].
  destruct (b <? 2 * (a mod b)); [lia |].
  destruct (Z.even (a / b)); lia.
Qed.

(** Every whole number up to 2^53 in magnitude is a double. *)
Lemma to_double_exact z : Z.abs z <= 2 ^ 53 -> Js.to_double z = z.
Proof.
  intros H. destruct (Z.eq_dec (Z.abs z) (2 ^ 53)) as [E | N].
  - assert (Hz : z = 2 ^ 53 \/ z = - 2 ^ 53) by lia.
    destruct Hz as [-> | ->]; reflexivity.
  - assert (Hlog : Z.log2 (Z.abs z) < 53).
    { destruct (Z.eq_dec (Z.abs z) 0) as [E0 | N0].
      - rewrite E0. simpl. lia.
      - apply Z.log2_lt_pow2; lia. }
    unfold Js.to_double, Js.scale.
    rewrite Z.max_l by lia. rewrite Z.pow_0_r, !Z.mul_1_r.
    rewrite round_half_even_one. lia.
Qed.

Lemma to_double_large c : 2 ^ 53 <= c -> 2 ^ 53 <= Js.to_double c.
Proof.
  intros H. unfold Js.to_double, Js.scale.
  assert (Hc : 0 < c) by lia.
  rewrite (Z.abs_eq c) by lia. rewrite (Z.sgn_pos c) by lia.
  assert (Hlog : 53 <= Z.log2 c).
  { change 53 with (Z.log2 (2 ^ 53)). apply Z.log2_le_mono. exact H. }
  set (k := Z.log2 c - 52).
  assert (Hk : 1 <= k) by (unfold k; lia).
  rewrite Z.max_r by lia. rewrite !Z.mul_1_l.
  assert (Hp : 2 <= 2 ^ k).
  { change 2 with (2 ^ 1) at 1. apply Z.pow_le_mono_r; lia. }
  assert (Hq : 2 ^ 52 <= c / 2 ^ k).
  { apply Z.div_le_lower_bound; [lia |].
    rewrite <- Z.pow_add_r by lia.
    replace (k + 52) with (Z.log2 c) by (unfold k; lia).
    apply Z.log2_spec. exact Hc. }
  pose proof (round_half_even_lower c (2 ^ k)) as Hr.
  change (2 ^ 53) with (2 ^ 52 * 2). nia.
Qed.

(** Below 2^53 only [x] itself reads back as [x]. *)
Lemma to_double_reads_back x c :
  0 <= x < 2 ^ 53 -> 0 <= c -> Js.to_double c = x -> c = x.
Proof.
  intros Hx Hc E.
  destruct (Z_lt_le_dec c (2 ^ 53)) as [Hs | Hl].
  - rewrite to_double_exact in E by lia. exact E.
  - pose proof (to_double_large c Hl). lia.
Qed.

(** *** [toString()] of a whole number below 2^53 *)

Lemma with_digits_small x n k v :
  0 <= x < 2 ^ 53 -> Js.with_digits x n k = Some v -> v = x.
Proof.
  intros Hx. unfold Js.with_digits.
  set (p := 10 ^ Z.max 0 (n - k)).
  assert (Hp : 0 < p) by (apply Z.pow_pos_nonneg; lia).
  assert (Hlo : 0 <= x / p * p).
  { apply Z.mul_nonneg_nonneg; [apply Z.div_pos |]; lia. }
  destruct (Js.to_double (x / p * p) =? x) eqn:L;
    destruct (Js.to_double (x / p * p + p) =? x) eqn:U;
    try discriminate;
    try (apply Z.eqb_eq, to_double_reads_back in L; [| lia | lia]);
    try (apply Z.eqb_eq, to_double_reads_back in U; [| lia | lia]);
    intros [= <-]; try assumption.
  destruct (x - x / p * p <? x / p * p + p - x); [assumption |].
  destruct (x / p * p + p - x <? x - x / p * p); [assumption |].
  destruct (Z.even (x / p * p / p)); assumption.
Qed.

Lemma shortest_from_small x n k more :
  0 <= x < 2 ^ 53 -> Js.shortest_from x n k more = x.
Proof.
  intros Hx. revert k. induction more as [| more IH]; intros k; simpl;
    destruct (Js.with_digits x n k) as [v |] eqn:E;
    try (eapply with_digits_small; eassumption); auto.
Qed.

Lemma number_toString_small x :
  0 <= x < 2 ^ 53 -> Js.number_toString x = Js.digits x.
Proof.
  intros Hx. unfold Js.number_toString, Js.shortest.
  rewrite shortest_from_small by exact Hx.
  destruct (x <? 10 ^ 21) eqn:E; [reflexivity |].
  apply Z.ltb_ge in E.
  assert (2 ^ 53 < 10 ^ 21) by reflexivity. lia.
Qed.

(** A whole number below 2^53 in magnitude prints as its decimal digits. *)
Lemma toString_small z :
  Z.abs z < 2 ^ 53 -> Js.toString (Js.Num z) = NilZero.string_of_int (Z.to_int z).
Proof.
  intros Hz. unfold Js.toString.
  destruct z as [| q | q].
  - reflexivity.
  - change (Z.pos q <? 0) with false. cbv iota.
    rewrite number_toString_small by lia. reflexivity.
  - change (Z.neg q <? 0) with true. cbv iota.
    change (- Z.neg q) with (Z.pos q).
    rewrite number_toString_small by lia. reflexivity.
Qed.

(** [to_double] and [add] against the kernel's binary64 arithmetic, and
    [toString] on doubles whose printed form is well known. *)
Example to_double_is_binary64_rounding :
  forallb Js.to_double_agrees_with_binary64
          [1; 2 ^ 53; 2 ^ 53 + 1; 2 ^ 53 + 3; 2 ^ 54 + 2; 2 ^ 54 + 6; 2 ^ 60 + 129;
           2 ^ 62 - 1; 2 ^ 62 + 511; 2 ^ 62 + 512; 2 ^ 62 + 513; 2 ^ 62 + 1536]
  = true.
Proof. vm_compute. reflexivity. Qed.

Example add_is_binary64_addition :
  forallb (fun ab => Js.add_agrees_with_binary64 (fst ab) (snd ab))
          [(5, 7); (2 ^ 53, 1); (2 ^ 53, 3); (2 ^ 53 + 2, 1); (2 ^ 60, 2 ^ 53 + 2);
           (2 ^ 62, 512); (2 ^ 62, 1536); (2 ^ 62, 2 ^ 61 + 512)]
  = true.
Proof. vm_compute. reflexivity. Qed.

Example toString_of_doubles :
  map (fun z => Js.toString (Js.Num z))
      [0; -42; 2 ^ 53; 2 ^ 60; 2 ^ 64; 10 ^ 21; 2 ^ 70; 99999999999999991611392]
  = ["0"; "-42"; "9007199254740992"; "1152921504606847000"; "18446744073709552000";
     "1e+21"; "1.1805916207174113e+21"; "1e+23"].
Proof. vm_compute. reflexivity. Qed.

(** *** Division and [toFixed(1)] *)
Import Js.

Lemma scale_nonneg x k : 0 <= k -> scale x k = x * 2 ^ k.
Proof. intros H. unfold scale. now rewrite Z.max_r by lia. Qed.

Lemma scale_nonpos x k : k <= 0 -> scale x k = x.
Proof. intros H. unfold scale. rewrite Z.max_l by lia. simpl. lia. Qed.

(** Rounding a quotient to the nearest integer moves it by at most one half. *)
Lemma round_half_even_near a b :
  0 < b ->
  2 * a - b <= 2 * (round_half_even a b * b) <= 2 * a + b.
Proof.
  intros Hb. unfold round_half_even.
  pose proof (Z.div_mod a b ltac:(lia)) as E.
  pose proof (Z.mod_pos_bound a b Hb) as R.
  destruct (Z.ltb_spec (2 * (a mod b)) b).
  - nia.
  - destruct (Z.ltb_spec b (2 * (a mod b))).
    + nia.
    + destruct (Z.even (a / b)); nia.
Qed.

Lemma round_half_even_nonneg a b : 0 <= a -> 0 < b -> 0 <= round_half_even a b.
Proof.
  intros Ha Hb. unfold round_half_even.
  pose proof (Z.div_pos a b Ha Hb).
  repeat match goal with |- context [if ?c then _ else _] => destruct c end; lia.
Qed.

(** The significand kept by [div_pos] has at least 53 bits:
    the quotient is scaled to 2^52 or more before it is rounded. *)
Lemma binade_scaled s n :
  0 < s -> 0 < n -> binade s n <= 52 ->
  2 ^ 52 * n <= s * 2 ^ (52 - binade s n).
Proof.
  intros Hs Hn. unfold binade.
  pose proof (Z.log2_spec s Hs) as [Ls Us].
  pose proof (Z.log2_spec n Hn) as [Ln Un].
  pose proof (Z.log2_nonneg s) as Ps.
  pose proof (Z.log2_nonneg n) as Pn.
  set (ls := Z.log2 s) in *. set (ln := Z.log2 n) in *.
  destruct (Z.ltb_spec (scale s (- (ls - ln))) (scale n (ls - ln))) as [C | C]; intros He.
  - replace (52 - (ls - ln - 1)) with (53 + ln - ls) by lia.
    assert (2 ^ (53 + ln) <= s * 2 ^ (53 + ln - ls)).
    { replace (53 + ln) with (ls + (53 + ln - ls)) at 1 by lia.
      rewrite Z.pow_add_r by lia.
      apply Z.mul_le_mono_nonneg_r; [apply Z.pow_nonneg; lia | exact Ls]. }
    assert (2 ^ 52 * n < 2 ^ (53 + ln)).
    { replace (53 + ln) with (52 + Z.succ ln) by lia.
      rewrite Z.pow_add_r by lia.
      apply Z.mul_lt_mono_pos_l; [reflexivity | exact Un]. }
    lia.
  - destruct (Z.le_gt_cases 0 (ls - ln)) as [G | G].
    + rewrite (scale_nonpos s) in C by lia. rewrite (scale_nonneg n) in C by lia.
      replace 52 with ((52 - (ls - ln)) + (ls - ln)) at 1 by lia.
      rewrite Z.pow_add_r by lia.
      assert (0 <= 2 ^ (52 - (ls - ln))) by (apply Z.pow_nonneg; lia).
      nia.
    + rewrite (scale_nonneg s) in C by lia. rewrite (scale_nonpos n) in C by lia.
      replace (52 - (ls - ln)) with (52 + - (ls - ln)) by lia.
      rewrite Z.pow_add_r by lia.
      nia.
Qed.

Lemma binade_upper s n :
  0 < s -> 0 < n -> binade s n <= Z.log2 s.
Proof.
  intros Hs Hn. unfold binade.
  pose proof (Z.log2_nonneg n).
  destruct (_ <? _); lia.
Qed.

Lemma toFixed1_div_pos_nearest s n :
  0 < s -> 0 < n -> 20 * s < 2 ^ 53 ->
  nearest_tenth (toFixed1 (div_pos s n)) s n.
Proof.
  intros Hs Hn Hb.
  assert (Hl : Z.log2 s < 49).
  { apply Z.log2_lt_pow2; [exact Hs | change (2 ^ 49) with 562949953421312; 
    change (2 ^ 53) with 9007199254740992 in Hb; lia]. }
  pose proof (binade_upper s n Hs Hn) as He.
  pose proof (binade_scaled s n Hs Hn ltac:(lia)) as L.
  unfold div_pos, toFixed1.
  set (k := 52 - binade s n) in *.
  assert (Hk : 4 <= k) by (unfold k; lia).
  rewrite (scale_nonneg s k) by lia.
  rewrite (scale_nonpos n (- k)) by lia.
  set (m := round_half_even (s * 2 ^ k) n).
  assert (HP : 0 < 2 ^ k) by (apply Z.pow_pos_nonneg; lia).
  pose proof (round_half_even_near (s * 2 ^ k) n Hn) as A. fold m in A.
  pose proof (round_half_even_nonneg (s * 2 ^ k) n ltac:(nia) Hn) as M. fold m in M.
  destruct (Z.ltb_spec m 0) as [? | _]; [lia |].
  unfold toFixed1_pos.
  rewrite (scale_nonpos (20 * m) (- k)) by lia.
  rewrite !(scale_nonneg _ k) by lia.
  set (P := 2 ^ k) in *.
  set (t := (20 * m + 1 * P) / (2 * P)).
  pose proof (Z.div_mod (20 * m + 1 * P) (2 * P) ltac:(lia)) as D.
  pose proof (Z.mod_pos_bound (20 * m + 1 * P) (2 * P) ltac:(lia)) as R.
  fold t in D.
  assert (C : 10 * n < P).
  { change (2 ^ 52) with 4503599627370496 in L.
    change (2 ^ 53) with 9007199254740992 in Hb. nia. }
  unfold nearest_tenth. split.
  - destruct (Z.le_gt_cases ((2 * t - 1) * n) (20 * s)) as [? | F]; [assumption | exfalso].
    assert (20 * s + 1 <= (2 * t - 1) * n) by lia.
    assert (20 * (s * P) + P <= (2 * t - 1) * n * P) by nia.
    assert ((2 * t - 1) * P <= 20 * m) by lia.
    assert ((2 * t - 1) * P * n <= 20 * m * n) by nia.
    nia.
  - destruct (Z.le_gt_cases (20 * s) ((2 * t + 1) * n)) as [? | F]; [assumption | exfalso].
    assert ((2 * t + 1) * n + 1 <= 20 * s) by lia.
    assert ((2 * t + 1) * n * P + P <= 20 * (s * P)) by nia.
    assert (20 * m + 1 <= (2 * t + 1) * P) by lia.
    assert (20 * m * n + n <= (2 * t + 1) * P * n) by nia.
    nia.
Qed.

Lemma toFixed1_div_zero n : 0 < n -> toFixed1 (div 0 n) = 0.
Proof.
  intros Hn.
  change (div 0 n) with (div_pos 0 n). unfold div_pos.
  assert (B : binade 0 n <= 0).
  { unfold binade. pose proof (Z.log2_nonneg n). change (Z.log2 0) with 0.
    destruct (_ <? _); lia. }
  set (k := 52 - binade 0 n).
  assert (Hk : 0 < k) by (unfold k; lia).
  assert (E : round_half_even (scale 0 k) (scale n (- k)) = 0).
  { replace (scale 0 k) with 0 by (unfold scale; lia).
    rewrite scale_nonpos by lia. unfold round_half_even.
    rewrite Z.div_0_l, Z.mod_0_l by lia.
    destruct (Z.ltb_spec (2 * 0) n); lia. }
  rewrite E. unfold toFixed1. change (0 <? 0) with false. cbv iota.
  unfold toFixed1_pos.
  rewrite (scale_nonpos _ (- k)) by lia. rewrite !(scale_nonneg _ k) by lia.
  assert (0 < 2 ^ k) by (apply Z.pow_pos_nonneg; lia).
  apply Z.div_small. lia.
Qed.

(** [parseFloat((s / n).toFixed(1))] is a one-decimal number nearest to
    the exact mean [s / n], for sums a double holds with room to spare. *)
Lemma toFixed1_div_nearest s n :
  0 <= s -> 0 < n -> 20 * s < 2 ^ 53 ->
  nearest_tenth (toFixed1 (div s n)) s n.
Proof.
  intros Hs Hn Hb.
  destruct (Z.eq_dec s 0) as [-> | Hne].
  - rewrite toFixed1_div_zero by exact Hn. unfold nearest_tenth. lia.
  - unfold div. destruct (Z.ltb_spec s 0); [lia |].
    apply toFixed1_div_pos_nearest; lia.
Qed.

(** [div_pos] is the kernel's binary64 division on every quotient of two
    integers up to 120, and on operands near the ends of the range the
    rounding lemma covers. *)
Example div_pos_agrees_with_binary64 :
  forallb (fun n => forallb (fun s => agrees_with_binary64 s n)
                            (map Z.of_nat (seq 1 120)))
          (map Z.of_nat (seq 1 120)) = true
  /\ forallb (fun n => forallb (fun s => agrees_with_binary64 s n)
                               [450359962737049; 450359962737048; 2 ^ 48 + 1;
                                2 ^ 40 - 1; 1000000007; 999999])
             [1; 3; 7; 10; 20; 49; 1000003; 2 ^ 31 - 1; 2 ^ 48 - 1] = true.
Proof. split; vm_compute; reflexivity. Qed.

(** The ties of [toFixed(1)] on doubles: 1.45 is stored just below the tie
    and goes down, 1.25 is exact and goes up, 1.35 is stored just above. *)
Example toFixed1_ties :
  toFixed1 (div 29 20) = 14 /\ toFixed1 (div 5 4) = 13 /\ toFixed1 (div 27 20) = 14.
Proof. repeat split. Qed.

End JsFacts.

(** ** Running a handler *)

Ltac unfold_program :=
  unfold handle, bind, call, data_or_throw, throw_on_error, rows_or_empty,
         ret, throw, json_ok, json_status.

(** ** POST /api/results *)

(** C8. A POST /api/results whose insert the store carries out appends
    exactly one row to [results], leaves the rest of the store alone and
    sends that row back; in server.js a request without [user_name] is
    stored under "Anonymous", in the minimal route set the name is stored
    as submitted. *)
Theorem post_results_inserts_one_row oracle now req s :
  carried_out (oracle 0%nat) ->
  (exists row,
     post_results oracle req s
       = (json_ok (SuccessResult (Some row)), set_results s (results s ++ [row]))
     /\ Result.test_id row = NewResult.test_id req
     /\ (NewResult.user_name req = None -> Result.user_name row = Some "Anonymous"))
  /\
  (exists row,
     Minimal.post_results oracle now req s
       = (json_ok (ResultRow (Some row)), set_results s (results s ++ [row]))
     /\ Result.test_id row = NewResult.test_id req
     /\ Result.user_name row = NewResult.user_name req).
Proof.
  intros [k H]. split.
  - unfold post_results. unfold_program. simpl. rewrite H. simpl.
    eexists. split; [reflexivity |]. simpl. split; [reflexivity |].
    intros ->. reflexivity.
  - unfold Minimal.post_results. unfold_program. simpl. rewrite H. simpl.
    eexists. split; [reflexivity |]. simpl. split; reflexivity.
Qed.

Lemma post_results_inserts_one_row_witness :
  carried_out (reliable "t1" 0%nat)
  /\ map Result.user_name
         (results (snd (post_results (reliable "t1") Sample.attempt empty_store)))
     = [Some "Anonymous"].
Proof.
  split; [exists "t1"; reflexivity |].
  destruct (post_results_inserts_one_row (reliable "t1") "2026-01-01T00:00:00.000Z"
              Sample.attempt empty_store (ex_intro _ "t1" eq_refl))
    as [(row & E & _ & Hname) _].
  rewrite E. simpl. rewrite (Hname eq_refl). reflexivity.
Defined.

Lemma post_results_refused oracle now req s m :
  oracle 0%nat = Refused m ->
  post_results oracle req s = (json_status 500 (Failure m), s)
  /\ Minimal.post_results oracle now req s = (json_status 500 (Error m), s).
Proof.
  intros H. unfold post_results, Minimal.post_results. unfold_program. simpl.
  rewrite H. simpl. destruct s; split; reflexivity.
Qed.

(** ** POST /api/reviews: the inserted row *)

Lemma updateTestRating_keeps_reviews oracle testId w :
  test_reviews (db (snd (updateTestRating oracle testId w))) = test_reviews (db w).
Proof.
  unfold updateTestRating. unfold_program.
  destruct w as [s n]. simpl.
  destruct (oracle n) as [k | m]; simpl; [| reflexivity].
  destruct (map Review.rating _) as [| r rs]; simpl; [reflexivity |].
  destruct (oracle (S n)) as [k' | m']; reflexivity.
Qed.

Lemma updateTestRating_returns oracle testId w :
  fst (updateTestRating oracle testId w) = Return tt.
Proof.
  unfold updateTestRating. unfold_program.
  destruct w as [s n]. simpl.
  destruct (oracle n) as [k | m]; simpl; [| reflexivity].
  destruct (map Review.rating _) as [| r rs]; simpl; [reflexivity |].
  destruct (oracle (S n)) as [k' | m']; reflexivity.
Qed.

(** C9. Whatever the request and whatever the store answers, the rows
    POST /api/reviews adds to [test_reviews] have [is_approved = true] and
    [user_id = null]: it is the one row built from the request when the
    store carries the insert out, and none when it refuses. *)
Theorem post_reviews_row_is_approved_and_unbound oracle req s :
  exists added,
    test_reviews (snd (post_reviews oracle req s)) = test_reviews s ++ added
    /\ Forall (fun r => Review.is_approved r = true /\ Review.user_id r = None) added
    /\ (carried_out (oracle 0%nat) -> added = [review_of req])
    /\ (forall m, oracle 0%nat = Refused m -> added = []).
Proof.
  unfold post_reviews, handle. unfold bind at 1. unfold call at 1. cbn [calls db].
  destruct (oracle 0%nat) as [k | m] eqn:E.
  - exists [review_of req]. cbn -[updateTestRating].
    unfold bind.
    pose proof (updateTestRating_keeps_reviews oracle (NewReview.test_id req)
      {| db := set_test_reviews s (test_reviews s ++ [review_of req]); calls := 1 |}) as K.
    pose proof (updateTestRating_returns oracle (NewReview.test_id req)
      {| db := set_test_reviews s (test_reviews s ++ [review_of req]); calls := 1 |}) as R.
    unfold review_of in *.
    destruct (updateTestRating _ _ _) as [c w]. simpl in *. subst c. simpl.
    split; [exact K |]. split.
    + repeat constructor.
    + split; [reflexivity | discriminate].
  - exists []. cbn. rewrite app_nil_r.
    split; [reflexivity |]. split; [constructor |].
    split; [| reflexivity]. intros [k H]. discriminate.
Qed.

(** ** POST /api/admin/login *)

Lemma no_admin_match_filter s email password :
  no_admin_match s email password ->
  filter (Db.is_admin email password) (users s) = [].
Proof.
  unfold no_admin_match. induction (users s) as [| u us IH]; intros H; [reflexivity |].
  simpl. destruct (Db.is_admin email password u) eqn:E.
  - exfalso. apply (H u (or_introl eq_refl)).
    unfold Db.is_admin in E.
    apply andb_prop in E as [E R]. apply andb_prop in E as [E P].
    apply String.eqb_eq in E, P, R. auto.
  - apply IH. intros u' Hu'. apply H. right. exact Hu'.
Qed.

Lemma admin_login_no_match oracle now req s :
  no_admin_match s (Login.email req) (Login.password req) ->
  admin_login oracle now req s = (unauthorized, s).
Proof.
  intros H. unfold admin_login, Db.select_admin. unfold_program. simpl.
  rewrite (no_admin_match_filter _ _ _ H).
  destruct (oracle 0%nat); reflexivity.
Qed.

(** C3. A login whose email and password match no stored user with the
    admin role is answered 401 with the fixed body and changes nothing;
    two such logins, on any two stores, get the same response, whether or
    not the email is known. *)
Theorem admin_login_failure_is_uniform oracle oracle' now now' req req' s s' :
  no_admin_match s (Login.email req) (Login.password req) ->
  no_admin_match s' (Login.email req') (Login.password req') ->
  fst (admin_login oracle now req s) = unauthorized
  /\ status (fst (admin_login oracle now req s)) = 401%nat
  /\ fst (admin_login oracle now req s) = fst (admin_login oracle' now' req' s')
  /\ snd (admin_login oracle now req s) = s.
Proof.
  intros H H'.
  rewrite (admin_login_no_match oracle now req s H).
  rewrite (admin_login_no_match oracle' now' req' s' H').
  repeat split.
Qed.

Lemma admin_login_failure_is_uniform_witness :
  fst (admin_login (reliable "t1") "2026-01-01T00:00:00.000Z"
         {| Login.email := "root@example.org"; Login.password := "guess" |}
         Sample.with_quiz)
  = fst (admin_login (reliable "t1") "2026-01-02T00:00:00.000Z"
           {| Login.email := "nobody@example.org"; Login.password := "secret" |}
           Sample.with_quiz).
Proof.
  apply (admin_login_failure_is_uniform (reliable "t1") (reliable "t1")
           "2026-01-01T00:00:00.000Z" "2026-01-02T00:00:00.000Z"
           {| Login.email := "root@example.org"; Login.password := "guess" |}
           {| Login.email := "nobody@example.org"; Login.password := "secret" |}
           Sample.with_quiz Sample.with_quiz).
  - intros u [<- | []] (_ & P & _). discriminate P.
  - intros u [<- | []] (E & _). discriminate E.
Defined.

(** ** DELETE /api/tests/:id on a missing test *)

Lemma filter_none {A} (p : A -> bool) (l : list A) :
  (forall x, In x l -> p x = false) -> filter p l = [].
Proof.
  induction l as [| x l IH]; intros H; [reflexivity |].
  simpl. rewrite (H x (or_introl eq_refl)). apply IH.
  intros y Hy. apply H. right. exact Hy.
Qed.

Lemma filter_all {A} (p : A -> bool) (l : list A) :
  (forall x, In x l -> p x = true) -> filter p l = l.
Proof.
  induction l as [| x l IH]; intros H; [reflexivity |].
  simpl. rewrite (H x (or_introl eq_refl)). f_equal. apply IH.
  intros y Hy. apply H. right. exact Hy.
Qed.

(** C6. Deleting a test id the store does not hold does not throw: when
    the store carries the delete and the log insert out, the response is
    [{ success: true }] and one audit entry is appended whose description
    ends in the raw id. *)
Theorem delete_missing_test_logs_raw_id oracle id user_id s :
  (forall t, In t (tests s) -> Test.id t <> id) ->
  carried_out (oracle 1%nat) ->
  carried_out (oracle 2%nat) ->
  let (r, s') := delete_test oracle id user_id s in
  r = json_ok Success
  /\ admin_logs s' = admin_logs s ++
       [{| AdminLog.user_id := user_id;
           AdminLog.action_type := "DELETE_TEST";
           AdminLog.description := ("Удален тест: " ++ id)%string |}]
  /\ tests s' = tests s.
Proof.
  intros Hmissing [k1 H1] [k2 H2].
  assert (F : filter (Db.test_has id) (tests s) = []).
  { apply filter_none. intros t Ht. apply String.eqb_neq. apply Hmissing. exact Ht. }
  assert (G : filter (fun t => negb (Db.test_has id t)) (tests s) = tests s).
  { apply filter_all. intros t Ht. apply negb_true_iff, String.eqb_neq.
    apply Hmissing. exact Ht. }
  unfold delete_test, Db.select_test. unfold_program. simpl.
  rewrite F.
  destruct (oracle 0%nat); simpl; rewrite H1; simpl; rewrite H2; simpl; rewrite G;
    repeat split.
Qed.

Lemma delete_missing_test_logs_raw_id_witness :
  fst (delete_test (reliable "t1") "gone" (Some "admin-1") Sample.with_quiz)
  = json_ok Success
  /\ map AdminLog.description
         (admin_logs (snd (delete_test (reliable "t1") "gone" (Some "admin-1")
                                       Sample.with_quiz)))
     = ["Удален тест: gone"].
Proof.
  pose proof (delete_missing_test_logs_raw_id (reliable "t1") "gone" (Some "admin-1")
                Sample.with_quiz) as H.
  destruct (delete_test (reliable "t1") "gone" (Some "admin-1") Sample.with_quiz)
    as [r s'].
  destruct H as (Hr & Hlog & _).
  - intros t [<- | []]. discriminate.
  - exists "t1"; reflexivity.
  - exists "t1"; reflexivity.
  - simpl. rewrite Hr, Hlog. split; reflexivity.
Defined.

(** ** Question rows built from a payload *)

Lemma reduce_sum_from {A} (f : A -> Z) (l : list A) (a : Z) :
  Z.abs a + sum_list (map Z.abs (map f l)) <= 2 ^ 53 ->
  fold_left (fun sum x => Js.add sum (f x)) l a = a + sum_list (map f l).
Proof.
  assert (Hpos : forall m : list Z, 0 <= sum_list (map Z.abs m)).
  { induction m; simpl; lia. }
  unfold sum_list in *.
  revert a. induction l as [| x l IH]; intros a; cbn [map fold_right fold_left];
    intros H.
  - lia.
  - pose proof (Hpos (map f l)).
    unfold Js.add at 2. rewrite JsFacts.to_double_exact by lia.
    rewrite IH by lia. lia.
Qed.

(** Numbers that add exactly are summed by [reduce] as they are on paper. *)
Lemma reduce_sum_is_sum {A} (f : A -> Z) (l : list A) :
  adds_exactly (map f l) -> Js.reduce_sum f l = sum_list (map f l).
Proof.
  unfold adds_exactly, Js.reduce_sum. intros H.
  rewrite reduce_sum_from by (simpl; lia). lia.
Qed.

Lemma nonneg_adds_exactly (rs : list Z) :
  Forall (fun r => 0 <= r) rs -> 20 * sum_list rs < 2 ^ 53 -> adds_exactly rs.
Proof.
  intros Hpos Hbound. unfold adds_exactly.
  assert (E : map Z.abs rs = rs).
  { clear Hbound. induction Hpos as [| r rs Hr _ IH]; simpl; [reflexivity |].
    rewrite IH, Z.abs_eq by exact Hr. reflexivity. }
  assert (0 <= sum_list rs).
  { clear - Hpos. induction Hpos; simpl; lia. }
  rewrite E. lia.
Qed.

Lemma reduce_sum_ratings (rs : list Z) :
  Forall (fun r => 0 <= r) rs -> 20 * sum_list rs < 2 ^ 53 ->
  Js.reduce_sum (fun r => r) rs = sum_list rs.
Proof.
  intros Hpos Hbound. rewrite reduce_sum_is_sum; rewrite map_id; [reflexivity |].
  apply nonneg_adds_exactly; assumption.
Qed.

Lemma num_or_declared q :
  Js.num_or (Payload.points q) 1 = counted_points q.
Proof.
  unfold counted_points, declared_points, Js.num_or.
  destruct (Payload.points q) as [[| p | p] |]; reflexivity.
Qed.

Lemma num_or_declared_nonzero q :
  Payload.points q <> Some 0 -> Js.num_or (Payload.points q) 1 = declared_points q.
Proof.
  unfold declared_points, Js.num_or.
  destruct (Payload.points q) as [[| p | p] |]; intros H; try reflexivity.
  now elim H.
Qed.

Lemma question_rows_length i n qs rows :
  question_rows i n qs = Some rows -> List.length rows = List.length qs.
Proof.
  revert n rows. induction qs as [| q qs IH]; intros n rows; simpl.
  - intros [= <-]. reflexivity.
  - destruct (question_row i q n) as [r |]; [| discriminate].
    destruct (question_rows i (n + 1) qs) as [rs |] eqn:E; [| discriminate].
    intros [= <-]. simpl. f_equal. eapply IH. exact E.
Qed.

Lemma question_row_fields i q n r :
  question_row i q n = Some r ->
  Question.test_id r = i
  /\ Question.order_index r = n
  /\ Question.question_text r = Payload.question_text q
  /\ Question.points r = Js.num_or (Payload.points q) 1.
Proof.
  unfold question_row. destruct (Payload.correct_answer q); [| discriminate].
  intros [= <-]. repeat split.
Qed.

Lemma question_row_submitted i q n r :
  question_row i q n = Some r -> submitted_as i n q r.
Proof.
  unfold question_row, submitted_as.
  destruct (Payload.correct_answer q) as [a |] eqn:A; [| discriminate].
  intros [= <-]. cbn [Question.test_id Question.question_text Question.options
                       Question.correct_answer Question.points Question.order_index].
  split; [reflexivity |]. split; [reflexivity |]. split; [reflexivity |].
  split; [| split; [apply num_or_declared | reflexivity]].
  exists a. split; [reflexivity |]. split; [reflexivity |].
  destruct a as [z | t]; simpl; [| reflexivity].
  intros Hz. apply JsFacts.toString_small. exact Hz.
Qed.

Lemma question_rows_submitted i n qs rows :
  question_rows i n qs = Some rows ->
  forall j q r,
    nth_error qs j = Some q -> nth_error rows j = Some r ->
    submitted_as i (n + Z.of_nat j) q r.
Proof.
  revert n rows. induction qs as [| q0 qs IH]; intros n rows; simpl.
  - intros _ [| j] q r H; discriminate H.
  - destruct (question_row i q0 n) as [r0 |] eqn:R; [| discriminate].
    destruct (question_rows i (n + 1) qs) as [rs |] eqn:E; [| discriminate].
    intros [= <-] [| j] q r; simpl.
    + intros [= <-] [= <-]. rewrite Z.add_0_r. apply question_row_submitted. exact R.
    + intros Hq Hr. replace (n + Z.pos (Pos.of_succ_nat j)) with (n + 1 + Z.of_nat j) by lia.
      eapply IH; eassumption.
Qed.

Lemma question_rows_test_id i n qs rows :
  question_rows i n qs = Some rows ->
  forall r, In r rows -> Db.question_of i r = true.
Proof.
  revert n rows. induction qs as [| q qs IH]; intros n rows; simpl.
  - intros [= <-] r [].
  - destruct (question_row i q n) as [r0 |] eqn:R; [| discriminate].
    destruct (question_rows i (n + 1) qs) as [rs |] eqn:E; [| discriminate].
    intros [= <-] r [<- | Hr].
    + apply question_row_fields in R as (T & _). unfold Db.question_of.
      rewrite T. apply String.eqb_refl.
    + eapply IH; eassumption.
Qed.

Lemma question_rows_text i n qs rows :
  question_rows i n qs = Some rows ->
  map Question.question_text rows = map Payload.question_text qs.
Proof.
  revert n rows. induction qs as [| q qs IH]; intros n rows; simpl.
  - intros [= <-]. reflexivity.
  - destruct (question_row i q n) as [r0 |] eqn:R; [| discriminate].
    destruct (question_rows i (n + 1) qs) as [rs |] eqn:E; [| discriminate].
    intros [= <-]. simpl.
    apply question_row_fields in R as (_ & _ & T & _). rewrite T.
    f_equal. eapply IH. exact E.
Qed.

(** ** POST /api/tests: the counts of the persisted row *)

Lemma post_tests_appends_test oracle req s k :
  oracle 0%nat = Done k ->
  tests (snd (post_tests oracle req s))
  = tests s ++ [Db.inserted_test k (NewTest.title req) (NewTest.description req)
                  (Z.of_nat (List.length (NewTest.questions req)))
                  (total_points_of (NewTest.questions req))
                  (NewTest.created_by req) true].
Proof.
  intros H. unfold post_tests, questionsWithTestId, Db.insert_test. unfold_program.
  simpl. rewrite H. simpl.
  destruct (question_rows k 0 (NewTest.questions req)) as [rows |]; simpl;
    [| reflexivity].
  destruct (oracle 1%nat) as [k1 | m1]; simpl; [| reflexivity].
  destruct (NewTest.tags req) as [[| tag more] |]; simpl.
  - destruct (oracle 2%nat); reflexivity.
  - destruct (oracle 2%nat); simpl; [| reflexivity].
    destruct (oracle 3%nat); reflexivity.
  - destruct (oracle 2%nat); reflexivity.
Qed.

(** C4, as amended. When the store carries the insert out and the points
    add exactly (whole numbers whose magnitudes, a question counting 1 when
    its points are left out or are 0, add up to at most 2^53), the
    persisted test row has [question_count] equal to the number of submitted
    questions and [total_points] equal to the sum of the counted points;
    where no question declares 0 points this is the sum the spec
    describes. *)
Theorem post_tests_counts_and_points oracle req s k :
  oracle 0%nat = Done k ->
  adds_exactly (map counted_points (NewTest.questions req)) ->
  exists t,
    tests (snd (post_tests oracle req s)) = tests s ++ [t]
    /\ Test.id t = k
    /\ Test.question_count t = Z.of_nat (List.length (NewTest.questions req))
    /\ Test.total_points t = sum_list (map counted_points (NewTest.questions req))
    /\ ((forall q, In q (NewTest.questions req) -> Payload.points q <> Some 0) ->
        Test.total_points t = sum_list (map declared_points (NewTest.questions req))).
Proof.
  intros H Hexact. eexists. split; [apply post_tests_appends_test; exact H |].
  assert (Hsum : total_points_of (NewTest.questions req)
                 = sum_list (map counted_points (NewTest.questions req))).
  { unfold total_points_of. rewrite reduce_sum_is_sum.
    - f_equal. apply map_ext. intros q. apply num_or_declared.
    - rewrite (map_ext _ counted_points) by (intros q; apply num_or_declared).
      exact Hexact. }
  simpl. repeat split.
  - exact Hsum.
  - intros Hq. rewrite Hsum. f_equal.
    apply map_ext_in. intros q Hin. rewrite <- num_or_declared.
    apply num_or_declared_nonzero. auto.
Qed.

Lemma post_tests_counts_and_points_witness :
  exists t,
    tests (snd (post_tests (reliable "t1") Sample.quiz empty_store)) = [t]
    /\ Test.question_count t = 2
    /\ Test.total_points t = 3.
Proof.
  destruct (post_tests_counts_and_points (reliable "t1") Sample.quiz empty_store "t1"
              eq_refl) as (t & Ht & _ & Hcount & _ & Hpoints).
  - unfold adds_exactly. simpl. lia.
  - exists t. split; [exact Ht |]. split; [exact Hcount |].
    rewrite Hpoints; [reflexivity |].
    intros q [<- | [<- | []]]; discriminate.
Defined.

(** C4 as stated fails: a question that declares 0 points is counted as 1,
    so the persisted [total_points] of [Sample.warmup_quiz] is 1 while the
    sum of the submitted points is 0. *)
Lemma zero_points_count_as_one :
  map Test.total_points
      (tests (snd (post_tests (reliable "t1") Sample.warmup_quiz empty_store))) = [1]
  /\ sum_list (map declared_points (NewTest.questions Sample.warmup_quiz)) = 0.
Proof.
  split; reflexivity.
Qed.

(** ** Multi-step writes keep what they wrote before a failure *)

Lemma post_tests_questions_refused oracle req s k rows m :
  oracle 0%nat = Done k ->
  question_rows k 0 (NewTest.questions req) = Some rows ->
  oracle 1%nat = Refused m ->
  post_tests oracle req s
  = (json_status 500 (Failure m),
     set_tests s (tests s ++ [Db.inserted_test k (NewTest.title req)
                                (NewTest.description req)
                                (Z.of_nat (List.length (NewTest.questions req)))
                                (total_points_of (NewTest.questions req))
                                (NewTest.created_by req) true])).
Proof.
  intros H0 Hrows H1.
  unfold post_tests, questionsWithTestId, Db.insert_test. unfold_program. simpl.
  rewrite H0. simpl. rewrite Hrows. simpl. rewrite H1. reflexivity.
Qed.

(** C2. Create and update are not atomic: there are executions in which
    the store refuses the insert of the questions after the earlier writes
    went through, the handler answers 500, and the earlier writes stay (the
    new test row; the updated test row and the deletion of its old
    questions). *)
Theorem multi_step_writes_are_not_rolled_back :
  (exists oracle req s t,
     carried_out (oracle 0%nat)
     /\ (exists m, oracle 1%nat = Refused m)
     /\ status (fst (post_tests oracle req s)) = 500%nat
     /\ In t (tests (snd (post_tests oracle req s)))
     /\ ~ In t (tests s))
  /\
  (exists oracle now id req s t,
     carried_out (oracle 0%nat)
     /\ carried_out (oracle 1%nat)
     /\ (exists m, oracle 2%nat = Refused m)
     /\ status (fst (put_test oracle now id req s)) = 500%nat
     /\ In t (tests (snd (put_test oracle now id req s)))
     /\ ~ In t (tests s)
     /\ filter (Db.question_of id) (questions s) <> []
     /\ filter (Db.question_of id) (questions (snd (put_test oracle now id req s))) = []).
Proof.
  split.
  - exists (Sample.refusing 1), Sample.quiz, empty_store,
      (Db.inserted_test "t1" "Quiz" "two questions" 2 3 (Some "admin-1") true).
    split; [exists "t1"; reflexivity |].
    split; [exists "connection lost"; reflexivity |].
    split; [reflexivity |].
    split; [left; reflexivity | intros []].
  - exists (Sample.refusing 2), "2026-01-01T00:00:00.000Z", "t1", Sample.revision,
      Sample.with_quiz.
    eexists.
    split; [exists "t1"; reflexivity |].
    split; [exists "t1"; reflexivity |].
    split; [exists "connection lost"; reflexivity |].
    split; [reflexivity |].
    split; [left; reflexivity |].
    split; [intros [H | []]; discriminate H |].
    split; [discriminate | reflexivity].
Qed.

(** ** The audit-log insert cannot fail a request *)

Lemma answering_before n o oracle i :
  (i < n)%nat -> answering n o oracle i = oracle i.
Proof.
  intros H. unfold answering. destruct (Nat.eqb_spec i n); [lia | reflexivity].
Qed.

Lemma answering_at n o oracle : answering n o oracle n = o.
Proof. unfold answering. now rewrite Nat.eqb_refl. Qed.

Lemma post_tests_audit oracle req s k rows :
  oracle 0%nat = Done k ->
  question_rows k 0 (NewTest.questions req) = Some rows ->
  carried_out (oracle 1%nat) ->
  (has_tags (NewTest.tags req) = true -> carried_out (oracle 2%nat)) ->
  fst (post_tests oracle req s)
  = json_ok (SuccessTest (Db.inserted_test k (NewTest.title req) (NewTest.description req)
                            (Z.of_nat (List.length (NewTest.questions req)))
                            (total_points_of (NewTest.questions req))
                            (NewTest.created_by req) true))
  /\ (forall m, oracle (create_audit_call req) = Refused m ->
      admin_logs (snd (post_tests oracle req s)) = admin_logs s).
Proof.
  intros H0 Hrows [k1 H1] H2.
  unfold create_audit_call, post_tests, questionsWithTestId. unfold_program. simpl.
  rewrite H0. simpl. rewrite Hrows. simpl. rewrite H1. simpl.
  destruct (NewTest.tags req) as [[| tag more] |]; simpl in *.
  - destruct (oracle 2%nat); simpl; split; try reflexivity; intros m' [=].
  - destruct (H2 eq_refl) as [k2 E2]. rewrite E2. simpl.
    destruct (oracle 3%nat); simpl; split; try reflexivity; intros m' [=].
  - destruct (oracle 2%nat); simpl; split; try reflexivity; intros m' [=].
Qed.

Lemma put_test_audit oracle now id req s t rows :
  carried_out (oracle 0%nat) ->
  filter (Db.test_has id) (tests s) = [t] ->
  question_rows id 0 (TestUpdate.questions req) = Some rows ->
  carried_out (oracle 2%nat) ->
  (has_tags (TestUpdate.tags req) = true -> carried_out (oracle 4%nat)) ->
  fst (put_test oracle now id req s)
  = json_ok (SuccessTest (Db.updated_test t (TestUpdate.title req)
                            (TestUpdate.description req)
                            (Z.of_nat (List.length (TestUpdate.questions req)))
                            (total_points_of (TestUpdate.questions req)) now))
  /\ (forall m, oracle (update_audit_call req) = Refused m ->
      admin_logs (snd (put_test oracle now id req s)) = admin_logs s).
Proof.
  intros [k0 H0] Ht Hrows [k2 H2] H4.
  unfold update_audit_call, put_test, questionsWithTestId, Db.update_test.
  unfold_program. simpl.
  rewrite H0. simpl. rewrite Ht. simpl.
  destruct (oracle 1%nat); simpl; rewrite Hrows; simpl; rewrite H2; simpl;
    destruct (oracle 3%nat); simpl;
    destruct (TestUpdate.tags req) as [[| tag more] |]; simpl in *;
    try (destruct (H4 eq_refl) as [k4 E4]; rewrite E4; simpl);
    match goal with
    | |- context [oracle ?n] => destruct (oracle n); simpl
    end;
    split; try reflexivity; intros m' [=].
Qed.

Lemma delete_test_audit oracle id user_id s :
  carried_out (oracle 1%nat) ->
  fst (delete_test oracle id user_id s) = json_ok Success
  /\ (forall m, oracle delete_audit_call = Refused m ->
      admin_logs (snd (delete_test oracle id user_id s)) = admin_logs s).
Proof.
  intros [k1 H1]. unfold delete_audit_call, delete_test. unfold_program. simpl.
  destruct (oracle 0%nat); simpl; rewrite H1; simpl;
    destruct (oracle 2%nat); simpl; split; try reflexivity; intros m' [=].
Qed.

(** C10. When the steps before the audit-log insert succeed, create,
    update and delete answer 200 with the same response whatever the store
    answers to the audit-log insert; when it refuses, no log entry is
    written and the response is still the success. *)
Theorem audit_log_failure_is_ignored
        (oc ou od : nat -> outcome)
        (creq : NewTest.body) (sc : store) (k : key) (crows : list Question.row)
        (now : timestamp) (uid : key) (ureq : TestUpdate.body) (su : store)
        (t : Test.row) (urows : list Question.row)
        (did : key) (user_id : option key) (sd : store) :
  oc 0%nat = Done k ->
  question_rows k 0 (NewTest.questions creq) = Some crows ->
  carried_out (oc 1%nat) ->
  (has_tags (NewTest.tags creq) = true -> carried_out (oc 2%nat)) ->
  carried_out (ou 0%nat) ->
  filter (Db.test_has uid) (tests su) = [t] ->
  question_rows uid 0 (TestUpdate.questions ureq) = Some urows ->
  carried_out (ou 2%nat) ->
  (has_tags (TestUpdate.tags ureq) = true -> carried_out (ou 4%nat)) ->
  carried_out (od 1%nat) ->
  forall audit : outcome,
    let oc' := answering (create_audit_call creq) audit oc in
    let ou' := answering (update_audit_call ureq) audit ou in
    let od' := answering delete_audit_call audit od in
    (status (fst (post_tests oc' creq sc)) = 200%nat
     /\ fst (post_tests oc' creq sc) = fst (post_tests oc creq sc))
    /\ (status (fst (put_test ou' now uid ureq su)) = 200%nat
        /\ fst (put_test ou' now uid ureq su) = fst (put_test ou now uid ureq su))
    /\ (status (fst (delete_test od' did user_id sd)) = 200%nat
        /\ fst (delete_test od' did user_id sd) = fst (delete_test od did user_id sd))
    /\ (forall m, audit = Refused m ->
        admin_logs (snd (post_tests oc' creq sc)) = admin_logs sc
        /\ admin_logs (snd (put_test ou' now uid ureq su)) = admin_logs su
        /\ admin_logs (snd (delete_test od' did user_id sd)) = admin_logs sd).
Proof.
  intros C0 Crows C1 C2 U0 Ut Urows U2 U4 D1 audit oc' ou' od'.
  assert (Lc : forall i, (i < create_audit_call creq)%nat -> oc' i = oc i)
    by (intros; apply answering_before; assumption).
  assert (Lu : forall i, (i < update_audit_call ureq)%nat -> ou' i = ou i)
    by (intros; apply answering_before; assumption).
  assert (Ld : forall i, (i < delete_audit_call)%nat -> od' i = od i)
    by (intros; apply answering_before; assumption).
  assert (Nc : (2 <= create_audit_call creq)%nat
               /\ (has_tags (NewTest.tags creq) = true -> create_audit_call creq = 3%nat))
    by (unfold create_audit_call; destruct (has_tags (NewTest.tags creq)); split;
        (lia || discriminate || reflexivity)).
  assert (Nu : (4 <= update_audit_call ureq)%nat
               /\ (has_tags (TestUpdate.tags ureq) = true -> update_audit_call ureq = 5%nat))
    by (unfold update_audit_call; destruct (has_tags (TestUpdate.tags ureq)); split;
        (lia || discriminate || reflexivity)).
  destruct Nc as [Nc Nc'], Nu as [Nu Nu'].
  assert (Pc' := post_tests_audit oc' creq sc k crows).
  rewrite !Lc in Pc' by lia.
  specialize (Pc' C0 Crows C1).
  destruct Pc' as [Pc' Qc'].
  { intros T. rewrite Lc by (rewrite (Nc' T); lia). exact (C2 T). }
  destruct (post_tests_audit oc creq sc k crows C0 Crows C1 C2) as [Pc _].
  assert (Pu' := put_test_audit ou' now uid ureq su t urows).
  rewrite !Lu in Pu' by lia.
  specialize (Pu' U0 Ut Urows U2).
  destruct Pu' as [Pu' Qu'].
  { intros T. rewrite Lu by (rewrite (Nu' T); lia). exact (U4 T). }
  destruct (put_test_audit ou now uid ureq su t urows U0 Ut Urows U2 U4) as [Pu _].
  assert (Pd' := delete_test_audit od' did user_id sd).
  rewrite !Ld in Pd' by (unfold delete_audit_call; lia).
  destruct (Pd' D1) as [Pd'' Qd'].
  destruct (delete_test_audit od did user_id sd D1) as [Pd _].
  rewrite Pc', Pc, Pu', Pu, Pd'', Pd.
  split; [split; reflexivity |].
  split; [split; reflexivity |].
  split; [split; reflexivity |].
  intros m ->. split; [| split].
  - apply (Qc' m). apply answering_at.
  - apply (Qu' m). apply answering_at.
  - apply (Qd' m). apply answering_at.
Qed.

Lemma audit_log_failure_is_ignored_witness :
  status (fst (post_tests (answering 3 (Refused "audit down") (reliable "t1"))
                          Sample.quiz empty_store)) = 200%nat
  /\ status (fst (put_test (answering 4 (Refused "audit down") (reliable "t1"))
                           "2026-01-01T00:00:00.000Z" "t1" Sample.revision
                           Sample.with_quiz)) = 200%nat
  /\ status (fst (delete_test (answering 2 (Refused "audit down") (reliable "t1"))
                              "t1" (Some "admin-1") Sample.with_quiz)) = 200%nat.
Proof.
  destruct (audit_log_failure_is_ignored
              (reliable "t1") (reliable "t1") (reliable "t1")
              Sample.quiz empty_store "t1" _
              "2026-01-01T00:00:00.000Z" "t1" Sample.revision Sample.with_quiz _ _
              "t1" (Some "admin-1") Sample.with_quiz
              eq_refl eq_refl
              (ex_intro _ "t1" eq_refl) (fun _ => ex_intro _ "t1" eq_refl)
              (ex_intro _ "t1" eq_refl) eq_refl eq_refl
              (ex_intro _ "t1" eq_refl) (fun _ => ex_intro _ "t1" eq_refl)
              (ex_intro _ "t1" eq_refl)
              (Refused "audit down"))
    as ((Hc & _) & (Hu & _) & (Hd & _) & _).
  split; [exact Hc |]. split; [exact Hu | exact Hd].
Defined.

(** ** PUT /api/tests/:id replaces the questions *)

Lemma filter_filter_negb {A} (p : A -> bool) (l : list A) :
  filter p (filter (fun x => negb (p x)) l) = [].
Proof.
  apply filter_none. intros x Hx. apply filter_In in Hx as [_ Hx].
  now apply negb_true_iff.
Qed.

Lemma filter_negb_idem {A} (p : A -> bool) (l : list A) :
  filter (fun x => negb (p x)) (filter (fun x => negb (p x)) l)
  = filter (fun x => negb (p x)) l.
Proof.
  apply filter_all. intros x Hx. now apply filter_In in Hx as [_ Hx].
Qed.

Lemma filter_negb_none {A} (p : A -> bool) (l : list A) :
  (forall x, In x l -> p x = true) -> filter (fun x => negb (p x)) l = [].
Proof.
  intros H. apply filter_none. intros x Hx. rewrite (H x Hx). reflexivity.
Qed.

(** What a PUT that answers 200 has done to the questions: the rows of the
    payload were appended, after the old rows of the test were deleted if
    the store carried that call out (its error is not looked at). *)
Lemma put_test_success oracle now id req s :
  status (fst (put_test oracle now id req s)) = 200%nat ->
  exists t rows,
    filter (Db.test_has id) (tests s) = [t]
    /\ question_rows id 0 (TestUpdate.questions req) = Some rows
    /\ questions (snd (put_test oracle now id req s))
       = match oracle 1%nat with
         | Done _ => filter (fun q => negb (Db.question_of id q)) (questions s)
         | Refused _ => questions s
         end ++ rows.
Proof.
  unfold put_test, questionsWithTestId, Db.update_test. unfold_program. simpl.
  destruct (oracle 0%nat) as [k0 | m0]; simpl; [| discriminate].
  destruct (filter (Db.test_has id) (tests s)) as [| t [| t' l]]; simpl;
    try discriminate.
  destruct (question_rows id 0 (TestUpdate.questions req)) as [rows |]; simpl.
  - intros H. exists t, rows. split; [reflexivity |]. split; [reflexivity |].
    revert H.
    destruct (oracle 1%nat); simpl;
      (destruct (oracle 2%nat); simpl; [| discriminate]);
      destruct (oracle 3%nat); simpl;
      destruct (TestUpdate.tags req) as [[| tag more] |]; simpl;
      destruct (oracle 4%nat); simpl; try discriminate;
      try (destruct (oracle 5%nat); simpl); reflexivity.
  - destruct (oracle 1%nat); simpl; discriminate.
Qed.

(** C5, as amended. After a PUT that answered 200 and whose delete of the
    old rows the store carried out, the question rows of the test are the
    submitted questions, one row each and in the submitted order: a row
    carries the test id, the submitted [question_text] and [options], the
    submitted [correct_answer] as text (a string as it is, a whole number
    below 2^53 in magnitude as its decimal digits), the submitted [points]
    (1 when they are left out or are 0) and its zero-based position as
    [order_index]; the rows of other tests are untouched. *)
Theorem put_test_replaces_questions oracle now id req s :
  status (fst (put_test oracle now id req s)) = 200%nat ->
  carried_out (oracle 1%nat) ->
  let s' := snd (put_test oracle now id req s) in
  let rows := filter (Db.question_of id) (questions s') in
  List.length rows = List.length (TestUpdate.questions req)
  /\ (forall n q r,
        nth_error (TestUpdate.questions req) n = Some q ->
        nth_error rows n = Some r ->
        submitted_as id (Z.of_nat n) q r)
  /\ filter (fun q => negb (Db.question_of id q)) (questions s')
     = filter (fun q => negb (Db.question_of id q)) (questions s).
Proof.
  intros Hok [k1 H1] s' rows.
  destruct (put_test_success oracle now id req s Hok) as (t & new & _ & Hnew & Hq).
  rewrite H1 in Hq.
  assert (Hrows : rows = new).
  { unfold rows, s'. rewrite Hq, filter_app, filter_filter_negb.
    apply (filter_all _ new (question_rows_test_id _ _ _ _ Hnew)). }
  split; [rewrite Hrows; eapply question_rows_length; exact Hnew |].
  split.
  - intros n q r Hn Hr. rewrite Hrows in Hr.
    apply (question_rows_submitted _ _ _ _ Hnew n q r Hn Hr).
  - unfold s'. rewrite Hq, filter_app, filter_negb_idem.
    rewrite (filter_negb_none _ new (question_rows_test_id _ _ _ _ Hnew)).
    apply app_nil_r.
Qed.

Lemma put_test_replaces_questions_witness :
  exists r,
    filter (Db.question_of "t1")
           (questions (snd (put_test (reliable "t1") "2026-01-01T00:00:00.000Z" "t1"
                                     Sample.revision Sample.with_quiz)))
    = [r]
    /\ Question.question_text r = "2 + 2?"
    /\ Question.options r = "[3, 4]"
    /\ Question.correct_answer r = "4"
    /\ Question.points r = 2
    /\ Question.order_index r = 0.
Proof.
  destruct (put_test_replaces_questions (reliable "t1") "2026-01-01T00:00:00.000Z" "t1"
              Sample.revision Sample.with_quiz eq_refl (ex_intro _ "t1" eq_refl))
    as (Hlen & Hrows & _).
  destruct (filter (Db.question_of "t1")
                   (questions (snd (put_test (reliable "t1") "2026-01-01T00:00:00.000Z"
                                             "t1" Sample.revision Sample.with_quiz))))
    as [| r [| r' rest]]; try discriminate Hlen.
  exists r. split; [reflexivity |].
  destruct (Hrows 0%nat Sample.sum r eq_refl eq_refl)
    as (_ & Htext & Hopt & (a & Ha & _ & Hans) & Hpts & Hidx).
  injection Ha as <-.
  repeat split; assumption.
Defined.

(** C5 as stated fails: a PUT is answered 200 also when the store refuses
    the delete of the old question rows, whose reply the handler does not
    look at.  Here one question is submitted for a test with two; the
    answer is 200 and the test is left with both old rows and the new
    one. *)
Lemma put_test_answered_200_keeps_old_questions :
  status (fst (put_test (Sample.refusing 1) "2026-01-01T00:00:00.000Z" "t1"
                        Sample.revision Sample.with_quiz)) = 200%nat
  /\ map Payload.question_text (TestUpdate.questions Sample.revision) = ["2 + 2?"]
  /\ map Question.question_text
         (filter (Db.question_of "t1")
                 (questions (snd (put_test (Sample.refusing 1) "2026-01-01T00:00:00.000Z"
                                           "t1" Sample.revision Sample.with_quiz))))
     = ["Capital of France?"; "2 + 2?"; "2 + 2?"].
Proof.
  split; [reflexivity |]. split; reflexivity.
Qed.

(** ** Create, then get *)

Lemma post_tests_success oracle req s :
  status (fst (post_tests oracle req s)) = 200%nat ->
  exists k rows,
    oracle 0%nat = Done k
    /\ question_rows k 0 (NewTest.questions req) = Some rows
    /\ questions (snd (post_tests oracle req s)) = questions s ++ rows.
Proof.
  unfold post_tests, questionsWithTestId, Db.insert_test. unfold_program. simpl.
  destruct (oracle 0%nat) as [k | m0] eqn:E0; simpl; [| discriminate].
  destruct (question_rows k 0 (NewTest.questions req)) as [rows |] eqn:Erows; simpl;
    [| discriminate].
  intros H. exists k, rows. split; [reflexivity |]. split; [exact Erows |].
  revert H.
  destruct (oracle 1%nat); simpl; [| discriminate].
  destruct (NewTest.tags req) as [[| tag more] |]; simpl;
    destruct (oracle 2%nat); simpl; try discriminate;
    try (destruct (oracle 3%nat); simpl); reflexivity.
Qed.

Lemma question_rows_ascending i n qs rows :
  question_rows i n qs = Some rows ->
  ascending (map Question.order_index rows)
  /\ (forall r, hd_error rows = Some r -> Question.order_index r = n).
Proof.
  revert n rows. induction qs as [| q qs IH]; intros n rows; simpl.
  - intros [= <-]. split; [exact I | discriminate].
  - destruct (question_row i q n) as [r0 |] eqn:R; [| discriminate].
    destruct (question_rows i (n + 1) qs) as [rs |] eqn:E; [| discriminate].
    intros [= <-].
    apply question_row_fields in R as (_ & O & _).
    destruct (IH _ _ E) as [A Hhd].
    split.
    + simpl. destruct rs as [| r1 rs']; [exact I |].
      split; [| exact A].
      rewrite O, (Hhd r1 eq_refl). lia.
    + intros r [= <-]. exact O.
Qed.

(** Ordering rows that already ascend leaves them as they are. *)
Lemma order_by_order_index_ascending rows :
  ascending (map Question.order_index rows) ->
  order_by_order_index rows = rows.
Proof.
  induction rows as [| r rest IH]; intros A; [reflexivity |].
  simpl. destruct rest as [| r' rest'].
  - reflexivity.
  - destruct A as [Hlt A]. rewrite (IH A). simpl.
    destruct (Z.ltb_spec (Question.order_index r') (Question.order_index r));
      [lia | reflexivity].
Qed.

(** C7. After a create that answered 200 under a fresh key, a GET of that
    key whose reads of the test and of its questions are carried out
    returns, in both route sets, the question rows built from the payload
    in the payload's order, their [order_index] strictly ascending. *)
Theorem created_questions_come_back_in_order oracle oracle' req s k :
  oracle 0%nat = Done k ->
  (forall t, In t (tests s) -> Test.id t <> k) ->
  (forall q, In q (questions s) -> Question.test_id q <> k) ->
  status (fst (post_tests oracle req s)) = 200%nat ->
  carried_out (oracle' 0%nat) ->
  carried_out (oracle' 1%nat) ->
  let s' := snd (post_tests oracle req s) in
  exists test rows,
    question_rows k 0 (NewTest.questions req) = Some rows
    /\ ascending (map Question.order_index rows)
    /\ map Question.question_text rows
       = map Payload.question_text (NewTest.questions req)
    /\ (exists tags reviews,
          fst (get_test oracle' k s') = json_ok (TestDetail test rows tags reviews))
    /\ fst (Minimal.get_test oracle' k s') = json_ok (TestWithQuestions test rows).
Proof.
  intros H0 Hfresh Horphan Hok [k0 G0] [k1 G1] s'.
  destruct (post_tests_success oracle req s Hok) as (k' & rows & H0' & Hrows & Hq).
  rewrite H0 in H0'. injection H0' as <-.
  pose proof (post_tests_appends_test oracle req s k H0) as Ht.
  fold s' in Hq, Ht.
  destruct (question_rows_ascending _ _ _ _ Hrows) as [Hasc _].
  set (test := Db.inserted_test k (NewTest.title req) (NewTest.description req)
                 (Z.of_nat (List.length (NewTest.questions req)))
                 (total_points_of (NewTest.questions req))
                 (NewTest.created_by req) true) in *.
  exists test, rows.
  split; [exact Hrows |]. split; [exact Hasc |].
  split; [eapply question_rows_text; exact Hrows |].
  assert (Ft : filter (Db.test_has k) (tests s') = [test]).
  { rewrite Ht, filter_app. rewrite (filter_none _ (tests s)).
    - simpl. unfold Db.test_has at 1. simpl. rewrite String.eqb_refl. reflexivity.
    - intros t Hin. apply String.eqb_neq. apply Hfresh. exact Hin. }
  assert (Fq : order_by_order_index (filter (Db.question_of k) (questions s')) = rows).
  { rewrite Hq, filter_app. rewrite (filter_none _ (questions s)).
    - simpl. rewrite (filter_all _ rows (question_rows_test_id _ _ _ _ Hrows)).
      apply order_by_order_index_ascending. exact Hasc.
    - intros q Hin. apply String.eqb_neq. apply Horphan. exact Hin. }
  split.
  - unfold get_test, Db.select_test, Db.select_questions. unfold_program. simpl.
    rewrite G0. simpl. rewrite Ft. simpl. rewrite G1. simpl. rewrite Fq.
    destruct (oracle' 2%nat); simpl; destruct (oracle' 3%nat); simpl;
      eexists; eexists; reflexivity.
  - unfold Minimal.get_test, Db.select_test, Db.select_questions. unfold_program. simpl.
    rewrite G0. simpl. rewrite Ft. simpl. rewrite G1. simpl. rewrite Fq. reflexivity.
Qed.

Lemma created_questions_come_back_in_order_witness :
  exists test rows,
    fst (Minimal.get_test (reliable "t1") "t1"
           (snd (post_tests (reliable "t1") Sample.quiz empty_store)))
    = json_ok (TestWithQuestions test rows)
    /\ map Question.question_text rows = ["Capital of France?"; "2 + 2?"].
Proof.
  destruct (created_questions_come_back_in_order (reliable "t1") (reliable "t1")
              Sample.quiz empty_store "t1")
    as (test & rows & _ & _ & Htext & _ & Hget).
  - reflexivity.
  - intros t [].
  - intros q [].
  - reflexivity.
  - exists "t1"; reflexivity.
  - exists "t1"; reflexivity.
  - exists test, rows. split; [exact Hget | exact Htext].
Defined.

(** ** POST /api/reviews: the recomputed rating *)





(** * Further properties of the handlers *)

(** ** GET /api/tests/:id *)

(** X1. Neither GET /api/tests/:id changes the store, whatever the store
    answers to its reads. *)
Theorem get_test_leaves_store_unchanged oracle id s :
  snd (get_test oracle id s) = s /\ snd (Minimal.get_test oracle id s) = s.
Proof.
  split.
  - unfold get_test, Db.select_test. unfold_program. simpl.
    destruct (oracle 0%nat); simpl; [| reflexivity].
    destruct (filter (Db.test_has id) (tests s)) as [| t [| t' l]]; simpl;
      try reflexivity.
    destruct (oracle 1%nat); simpl; destruct (oracle 2%nat); simpl;
      destruct (oracle 3%nat); reflexivity.
  - unfold Minimal.get_test, Db.select_test. unfold_program. simpl.
    destruct (oracle 0%nat); simpl; [| reflexivity].
    destruct (filter (Db.test_has id) (tests s)) as [| t [| t' l]]; simpl;
      try reflexivity.
    destruct (oracle 1%nat); reflexivity.
Qed.

(** X2. A GET of an id the store does not hold is answered 500 in both
    route sets: with the [.single()] error when the read is carried out,
    with the store's error otherwise. *)
Theorem get_test_of_missing_id oracle id s :
  (forall t, In t (tests s) -> Test.id t <> id) ->
  (carried_out (oracle 0%nat) ->
     fst (get_test oracle id s) = json_status 500 (Error single_error)
     /\ fst (Minimal.get_test oracle id s) = json_status 500 (Error single_error))
  /\ (forall m, oracle 0%nat = Refused m ->
        fst (get_test oracle id s) = json_status 500 (Error m)
        /\ fst (Minimal.get_test oracle id s) = json_status 500 (Error m)).
Proof.
  intros Hmissing.
  assert (F : filter (Db.test_has id) (tests s) = []).
  { apply filter_none. intros t Ht. apply String.eqb_neq. apply Hmissing. exact Ht. }
  unfold get_test, Minimal.get_test, Db.select_test. unfold_program. simpl.
  rewrite F. split.
  - intros [k H]. rewrite H. split; reflexivity.
  - intros m H. rewrite H. split; reflexivity.
Qed.

Lemma get_test_of_missing_id_witness :
  fst (get_test (reliable "t1") "gone" Sample.with_quiz)
  = json_status 500 (Error single_error).
Proof.
  destruct (get_test_of_missing_id (reliable "t1") "gone" Sample.with_quiz) as [H _].
  - intros t [<- | []]. discriminate.
  - apply H. exists "t1". reflexivity.
Defined.

(** X3. The two route sets treat a refused read of the questions
    differently: server.js answers 200 with an empty question list, the
    minimal route set answers 500 with the store's error. *)
Theorem get_test_refused_questions oracle id s t m :
  carried_out (oracle 0%nat) ->
  filter (Db.test_has id) (tests s) = [t] ->
  oracle 1%nat = Refused m ->
  (exists tags reviews,
     fst (get_test oracle id s) = json_ok (TestDetail t [] tags reviews))
  /\ fst (Minimal.get_test oracle id s) = json_status 500 (Error m).
Proof.
  intros [k0 H0] Ht H1.
  unfold get_test, Minimal.get_test, Db.select_test. unfold_program. simpl.
  rewrite H0. simpl. rewrite Ht. simpl. rewrite H1. simpl.
  split; [| reflexivity].
  destruct (oracle 2%nat); simpl; destruct (oracle 3%nat); simpl;
    eexists; eexists; reflexivity.
Qed.

Lemma get_test_refused_questions_witness :
  status (fst (get_test (Sample.refusing 1) "t1" Sample.with_quiz)) = 200%nat
  /\ status (fst (Minimal.get_test (Sample.refusing 1) "t1" Sample.with_quiz)) = 500%nat.
Proof.
  destruct (get_test_refused_questions (Sample.refusing 1) "t1" Sample.with_quiz
              _ "connection lost" (ex_intro _ "t1" eq_refl) eq_refl eq_refl)
    as [(tags & reviews & H) H'].
  rewrite H, H'. split; reflexivity.
Defined.

Lemma insert_by_order_permutation q qs :
  Permutation (insert_by_order q qs) (q :: qs).
Proof.
  induction qs as [| q' rest IH]; simpl; [apply Permutation_refl |].
  destruct (Question.order_index q' <? Question.order_index q).
  - eapply perm_trans; [apply perm_skip; exact IH | apply perm_swap].
  - apply Permutation_refl.
Qed.

Lemma order_by_order_index_permutation qs :
  Permutation (order_by_order_index qs) qs.
Proof.
  induction qs as [| q rest IH]; simpl; [constructor |].
  eapply perm_trans; [apply insert_by_order_permutation |].
  apply perm_skip. exact IH.
Qed.

Lemma insert_by_order_sorted q qs :
  StronglySorted by_order_index qs ->
  StronglySorted by_order_index (insert_by_order q qs).
Proof.
  induction 1 as [| q' rest Hsorted IH Hle]; simpl.
  - constructor; constructor.
  - destruct (Z.ltb_spec (Question.order_index q') (Question.order_index q)).
    + constructor; [exact IH |].
      apply (Permutation_Forall (Permutation_sym (insert_by_order_permutation q rest))).
      constructor; [unfold by_order_index; lia | exact Hle].
    + constructor; [constructor; assumption |].
      constructor; [unfold by_order_index; lia |].
      eapply Forall_impl; [| exact Hle].
      unfold by_order_index. intros a Ha. lia.
Qed.

Lemma order_by_order_index_sorted qs :
  StronglySorted by_order_index (order_by_order_index qs).
Proof.
  induction qs as [| q rest IH]; simpl; [constructor |].
  apply insert_by_order_sorted. exact IH.
Qed.

(** X4. When the test is found and the read of the questions is carried
    out, both route sets return the question rows of that test, all of them
    and no other, in ascending [order_index]; the reviews server.js returns
    are approved reviews of that test, and all of them when that read is
    carried out. *)
Theorem get_test_returns_sorted_questions oracle id s t :
  carried_out (oracle 0%nat) ->
  filter (Db.test_has id) (tests s) = [t] ->
  carried_out (oracle 1%nat) ->
  exists qs tags reviews,
    fst (get_test oracle id s) = json_ok (TestDetail t qs tags reviews)
    /\ fst (Minimal.get_test oracle id s) = json_ok (TestWithQuestions t qs)
    /\ Permutation qs (filter (Db.question_of id) (questions s))
    /\ StronglySorted by_order_index qs
    /\ Forall (fun r => Review.test_id r = id /\ Review.is_approved r = true) reviews
    /\ (carried_out (oracle 3%nat) ->
        reviews = filter (Db.approved_for id) (test_reviews s)).
Proof.
  intros [k0 H0] Ht [k1 H1].
  assert (A : Forall (fun r => Review.test_id r = id /\ Review.is_approved r = true)
                     (filter (Db.approved_for id) (test_reviews s))).
  { apply Forall_forall. intros r Hr. apply filter_In in Hr as [_ Hr].
    unfold Db.approved_for in Hr. apply andb_prop in Hr as [E B].
    apply String.eqb_eq in E. apply Bool.eqb_prop in B. auto. }
  unfold get_test, Minimal.get_test, Db.select_test, Db.select_questions,
    Db.select_reviews.
  unfold_program. simpl.
  rewrite H0. simpl. rewrite Ht. simpl. rewrite H1. simpl.
  destruct (oracle 2%nat); simpl; destruct (oracle 3%nat) eqn:E3; simpl;
    eexists; eexists; eexists;
    (split; [reflexivity |]); (split; [reflexivity |]);
    (split; [apply order_by_order_index_permutation |]);
    (split; [apply order_by_order_index_sorted |]);
    (split; [first [exact A | constructor] |]);
    first [reflexivity | intros [k3 H3]; discriminate H3 | intros _; reflexivity].
Qed.

Lemma get_test_returns_sorted_questions_witness :
  exists qs,
    fst (Minimal.get_test (reliable "t1") "t1" Sample.with_quiz)
    = json_ok (TestWithQuestions
                 (Db.inserted_test "t1" "Quiz" "two questions" 2 3 (Some "admin-1") true)
                 qs)
    /\ StronglySorted by_order_index qs.
Proof.
  destruct (get_test_returns_sorted_questions (reliable "t1") "t1" Sample.with_quiz _
              (ex_intro _ "t1" eq_refl) eq_refl (ex_intro _ "t1" eq_refl))
    as (qs & tags & reviews & _ & H & _ & Hsorted & _).
  exists qs. split; [exact H | exact Hsorted].
Defined.

(** ** POST /api/tests and PUT /api/tests/:id *)

Lemma question_rows_points i n qs rows :
  question_rows i n qs = Some rows ->
  map Question.points rows = map counted_points qs.
Proof.
  revert n rows. induction qs as [| q qs IH]; intros n rows; simpl.
  - intros [= <-]. reflexivity.
  - destruct (question_row i q n) as [r0 |] eqn:R; [| discriminate].
    destruct (question_rows i (n + 1) qs) as [rs |] eqn:E; [| discriminate].
    intros [= <-]. simpl.
    apply question_row_fields in R as (_ & _ & _ & P). rewrite P, num_or_declared.
    f_equal. eapply IH. exact E.
Qed.

Lemma question_rows_none i n qs :
  (exists q, In q qs /\ Payload.correct_answer q = None) ->
  question_rows i n qs = None.
Proof.
  revert n. induction qs as [| q qs IH]; intros n (q0 & Hin & Hnone); [destruct Hin |].
  simpl. unfold question_row.
  destruct (Payload.correct_answer q) eqn:A.
  - destruct Hin as [-> | Hin]; [congruence |].
    rewrite (IH (n + 1) (ex_intro _ q0 (conj Hin Hnone))). reflexivity.
  - reflexivity.
Qed.

(** X5. After a create that answered 200 under a key no question row
    carried before, the counts written on the test row agree with the rows
    stored for it: [question_count] is their number, and [total_points] is
    the sum of their [points] when these add exactly (whole numbers whose
    magnitudes add up to at most 2^53; beyond, the handler's sum is
    rounded as doubles are). *)
Theorem created_test_counts_match_rows oracle req s k :
  oracle 0%nat = Done k ->
  (forall q, In q (questions s) -> Question.test_id q <> k) ->
  status (fst (post_tests oracle req s)) = 200%nat ->
  let s' := snd (post_tests oracle req s) in
  let stored := filter (Db.question_of k) (questions s') in
  exists t,
    In t (tests s')
    /\ Test.id t = k
    /\ Test.question_count t = Z.of_nat (List.length stored)
    /\ (adds_exactly (map Question.points stored) ->
        Test.total_points t = sum_list (map Question.points stored)).
Proof.
  intros H0 Horphan Hok s' stored.
  destruct (post_tests_success oracle req s Hok) as (k' & rows & H0' & Hrows & Hq).
  rewrite H0 in H0'. injection H0' as <-.
  pose proof (post_tests_appends_test oracle req s k H0) as Ht.
  fold s' in Hq, Ht.
  assert (Hstored : stored = rows).
  { unfold stored. rewrite Hq, filter_app. rewrite (filter_none _ (questions s)).
    - simpl. apply filter_all. eapply question_rows_test_id. exact Hrows.
    - intros q Hin. apply String.eqb_neq. apply Horphan. exact Hin. }
  eexists. split; [rewrite Ht; apply in_or_app; right; left; reflexivity |].
  simpl. split; [reflexivity |]. rewrite Hstored. split.
  - f_equal. symmetry. eapply question_rows_length. exact Hrows.
  - rewrite (question_rows_points _ _ _ _ Hrows). intros Hexact.
    unfold total_points_of. rewrite reduce_sum_is_sum.
    + f_equal. apply map_ext. intros q. apply num_or_declared.
    + rewrite (map_ext _ counted_points) by (intros q; apply num_or_declared).
      exact Hexact.
Qed.

Lemma created_test_counts_match_rows_witness :
  exists t,
    In t (tests (snd (post_tests (reliable "t1") Sample.quiz empty_store)))
    /\ Test.question_count t = 2
    /\ Test.total_points t = 3.
Proof.
  destruct (created_test_counts_match_rows (reliable "t1") Sample.quiz empty_store "t1"
              eq_refl) as (t & Hin & _ & Hcount & Hpoints).
  - intros q [].
  - reflexivity.
  - exists t. split; [exact Hin |]. split; [exact Hcount |].
    apply Hpoints. unfold adds_exactly. simpl. lia.
Defined.

(** X6. A create whose payload holds a question without [correct_answer]
    throws after the test row is inserted: it is answered 500 with the
    TypeError's message, the new test row stays, and no question, tag link
    or log entry is written. *)
Theorem post_tests_missing_answer_keeps_test oracle req s k :
  oracle 0%nat = Done k ->
  (exists q, In q (NewTest.questions req) /\ Payload.correct_answer q = None) ->
  post_tests oracle req s
  = (json_status 500 (Failure missing_answer_error),
     set_tests s (tests s ++ [Db.inserted_test k (NewTest.title req)
                                (NewTest.description req)
                                (Z.of_nat (List.length (NewTest.questions req)))
                                (total_points_of (NewTest.questions req))
                                (NewTest.created_by req) true])).
Proof.
  intros H0 Hmissing.
  unfold post_tests, questionsWithTestId, Db.insert_test. unfold_program. simpl.
  rewrite H0. simpl. rewrite (question_rows_none k 0 _ Hmissing). reflexivity.
Qed.

Lemma post_tests_missing_answer_keeps_test_witness :
  status (fst (post_tests (reliable "t1") More.unanswered_quiz empty_store)) = 500%nat
  /\ map Test.id (tests (snd (post_tests (reliable "t1") More.unanswered_quiz
                                         empty_store))) = ["t1"].
Proof.
  rewrite (post_tests_missing_answer_keeps_test (reliable "t1") More.unanswered_quiz
             empty_store "t1" eq_refl).
  - split; reflexivity.
  - exists More.unanswered. split; [right; left; reflexivity | reflexivity].
Defined.

(** X7. A PUT of an id the store does not hold is answered 500 and changes
    nothing: the questions and tag links under that id are not deleted. *)
Theorem put_test_of_missing_id oracle now id req s :
  (forall t, In t (tests s) -> Test.id t <> id) ->
  status (fst (put_test oracle now id req s)) = 500%nat
  /\ snd (put_test oracle now id req s) = s.
Proof.
  intros Hmissing.
  assert (F : filter (Db.test_has id) (tests s) = []).
  { apply filter_none. intros t Ht. apply String.eqb_neq. apply Hmissing. exact Ht. }
  unfold put_test, Db.update_test. unfold_program. simpl. rewrite F.
  destruct (oracle 0%nat); split; reflexivity.
Qed.

Lemma put_test_of_missing_id_witness :
  snd (put_test (reliable "t1") "2026-01-01T00:00:00.000Z" "gone" Sample.revision
                Sample.with_quiz) = Sample.with_quiz.
Proof.
  apply (put_test_of_missing_id (reliable "t1") "2026-01-01T00:00:00.000Z" "gone"
           Sample.revision Sample.with_quiz).
  intros t [<- | []]. discriminate.
Defined.

(** X8. The PUT handler does not look at the reply to its delete of the
    old questions: when the store refuses that delete and carries the rest
    out, the answer is still 200 and the old rows of the test stay, followed
    by the new ones. *)
Theorem put_test_masks_refused_delete oracle now id req s m :
  status (fst (put_test oracle now id req s)) = 200%nat ->
  oracle 1%nat = Refused m ->
  exists rows,
    question_rows id 0 (TestUpdate.questions req) = Some rows
    /\ filter (Db.question_of id) (questions (snd (put_test oracle now id req s)))
       = filter (Db.question_of id) (questions s) ++ rows.
Proof.
  intros Hok H1.
  destruct (put_test_success oracle now id req s Hok) as (t & rows & _ & Hrows & Hq).
  rewrite H1 in Hq. exists rows. split; [exact Hrows |].
  rewrite Hq, filter_app.
  rewrite (filter_all _ rows (question_rows_test_id _ _ _ _ Hrows)). reflexivity.
Qed.

Lemma put_test_masks_refused_delete_witness :
  map Question.question_text
      (filter (Db.question_of "t1")
              (questions (snd (put_test (Sample.refusing 1) "2026-01-01T00:00:00.000Z"
                                        "t1" Sample.revision Sample.with_quiz))))
  = ["Capital of France?"; "2 + 2?"; "2 + 2?"].
Proof.
  destruct (put_test_masks_refused_delete (Sample.refusing 1) "2026-01-01T00:00:00.000Z"
              "t1" Sample.revision Sample.with_quiz "connection lost" eq_refl eq_refl)
    as (rows & Hrows & Hq).
  rewrite Hq. injection Hrows as <-. reflexivity.
Defined.

(** X9. A PUT whose payload holds a question without [correct_answer]
    throws after the old questions were deleted: it is answered 500, the
    test row is already updated, and the test is left without any question
    row. *)
Theorem put_test_missing_answer_drops_questions oracle now id req s t :
  carried_out (oracle 0%nat) ->
  filter (Db.test_has id) (tests s) = [t] ->
  carried_out (oracle 1%nat) ->
  (exists q, In q (TestUpdate.questions req) /\ Payload.correct_answer q = None) ->
  let (r, s') := put_test oracle now id req s in
  r = json_status 500 (Failure missing_answer_error)
  /\ filter (Db.question_of id) (questions s') = []
  /\ filter (Db.test_has id) (tests s')
     = [Db.updated_test t (TestUpdate.title req) (TestUpdate.description req)
          (Z.of_nat (List.length (TestUpdate.questions req)))
          (total_points_of (TestUpdate.questions req)) now].
Proof.
  intros [k0 H0] Ht [k1 H1] Hmissing.
  unfold put_test, questionsWithTestId, Db.update_test, Db.delete_questions.
  unfold_program. simpl.
  rewrite H0. simpl. rewrite Ht. simpl. rewrite H1. simpl.
  rewrite (question_rows_none id 0 _ Hmissing). simpl.
  split; [reflexivity |]. split; [apply filter_filter_negb |].
  clear - Ht. revert t Ht.
  induction (tests s) as [| t0 l IH]; intros t Ht; [discriminate |].
  simpl in *. destruct (Db.test_has id t0) eqn:E.
  - injection Ht as -> Hl. simpl.
    replace (Db.test_has id (Db.updated_test t _ _ _ _ _)) with true
      by (symmetry; exact E).
    f_equal. clear - Hl. induction l as [| t1 l IH]; [reflexivity |].
    simpl in *. destruct (Db.test_has id t1) eqn:E1; [discriminate |].
    simpl. rewrite E1. apply IH. exact Hl.
  - simpl. rewrite E. apply IH. exact Ht.
Qed.

Lemma put_test_missing_answer_drops_questions_witness :
  filter (Db.question_of "t1")
         (questions (snd (put_test (reliable "t1") "2026-01-01T00:00:00.000Z" "t1"
                                   More.unanswered_revision Sample.with_quiz)))
  = [].
Proof.
  pose proof (put_test_missing_answer_drops_questions (reliable "t1")
                "2026-01-01T00:00:00.000Z" "t1" More.unanswered_revision
                Sample.with_quiz _ (ex_intro _ "t1" eq_refl) eq_refl
                (ex_intro _ "t1" eq_refl)) as H.
  destruct (put_test (reliable "t1") "2026-01-01T00:00:00.000Z" "t1"
                     More.unanswered_revision Sample.with_quiz) as [r s'].
  destruct H as (_ & Hq & _).
  - exists More.unanswered. split; [left; reflexivity | reflexivity].
  - exact Hq.
Defined.

(** ** DELETE /api/tests/:id *)

(** X10. Deleting a test the store holds, with the delete and the log
    insert carried out, answers success, leaves no test row under that id
    and appends one audit entry: it names the test's title when the title
    was read and is not empty, and the raw id when the title is empty or
    its read was refused. *)
Theorem delete_test_logs_title oracle id user_id s t :
  filter (Db.test_has id) (tests s) = [t] ->
  carried_out (oracle 1%nat) ->
  carried_out (oracle 2%nat) ->
  let (r, s') := delete_test oracle id user_id s in
  r = json_ok Success
  /\ filter (Db.test_has id) (tests s') = []
  /\ admin_logs s' = admin_logs s ++
       [{| AdminLog.user_id := user_id;
           AdminLog.action_type := "DELETE_TEST";
           AdminLog.description :=
             ("Удален тест: "
                ++ match oracle 0%nat with
                   | Done _ => if String.eqb (Test.title t) EmptyString
                               then id else Test.title t
                   | Refused _ => id
                   end)%string |}].
Proof.
  intros Ht [k1 H1] [k2 H2].
  unfold delete_test, Db.select_test, Db.delete_test. unfold_program. simpl.
  rewrite Ht.
  destruct (oracle 0%nat); simpl; rewrite H1; simpl; rewrite H2; simpl;
    (split; [reflexivity |]); (split; [apply filter_filter_negb | reflexivity]).
Qed.

Lemma delete_test_logs_title_witness :
  map AdminLog.description
      (admin_logs (snd (delete_test (reliable "t1") "t1" (Some "admin-1")
                                    Sample.with_quiz)))
  = ["Удален тест: Quiz"].
Proof.
  pose proof (delete_test_logs_title (reliable "t1") "t1" (Some "admin-1")
                Sample.with_quiz _ eq_refl (ex_intro _ "t1" eq_refl)
                (ex_intro _ "t1" eq_refl)) as H.
  destruct (delete_test (reliable "t1") "t1" (Some "admin-1") Sample.with_quiz)
    as [r s'].
  destruct H as (_ & _ & Hlog). simpl. rewrite Hlog. reflexivity.
Defined.

(** X11. When the store refuses the delete, DELETE /api/tests/:id answers
    500 with the store's error, deletes nothing and writes no audit
    entry. *)
Theorem delete_test_refused oracle id user_id s m :
  oracle 1%nat = Refused m ->
  delete_test oracle id user_id s = (json_status 500 (Failure m), s).
Proof.
  intros H1. unfold delete_test, Db.select_test. unfold_program. simpl.
  destruct (oracle 0%nat); simpl; rewrite H1; reflexivity.
Qed.

Lemma delete_test_refused_witness :
  delete_test (Sample.refusing 1) "t1" (Some "admin-1") Sample.with_quiz
  = (json_status 500 (Failure "connection lost"), Sample.with_quiz).
Proof.
  apply (delete_test_refused (Sample.refusing 1) "t1" (Some "admin-1")
           Sample.with_quiz "connection lost" eq_refl).
Defined.

(** ** POST /api/admin/login *)

(** X12. A login that matches exactly one admin, read from a store that
    carries the lookup out, is answered 200 with that user's whole stored
    row, password hash included, as it was before the login.  When the
    store carries the stamp out, the rows under that user's id get
    [last_login] set to the time of the request and nothing else changes:
    every other column of every user row, and every other table, is as it
    was.  When the store refuses the stamp, the login still succeeds and
    the store is as before. *)
Theorem admin_login_returns_stored_row oracle now req s u :
  carried_out (oracle 0%nat) ->
  filter (Db.is_admin (Login.email req) (Login.password req)) (users s) = [u] ->
  let (r, s') := admin_login oracle now req s in
  r = json_ok (SuccessUser u)
  /\ In u (users s)
  /\ User.password_hash u = Login.password req
  /\ (carried_out (oracle 1%nat) ->
      Forall2 (stamped u now) (users s) (users s')
      /\ tests s' = tests s
      /\ questions s' = questions s
      /\ tags s' = tags s
      /\ test_tags s' = test_tags s
      /\ results s' = results s
      /\ test_reviews s' = test_reviews s
      /\ admin_logs s' = admin_logs s)
  /\ (forall m, oracle 1%nat = Refused m -> s' = s).
Proof.
  intros [k0 H0] Hu.
  assert (Hin : In u (filter (Db.is_admin (Login.email req) (Login.password req))
                             (users s))) by (rewrite Hu; left; reflexivity).
  apply filter_In in Hin as [Hin Hadmin].
  unfold Db.is_admin in Hadmin.
  apply andb_prop in Hadmin as [Hadmin _]. apply andb_prop in Hadmin as [_ Hp].
  apply String.eqb_eq in Hp.
  unfold admin_login, Db.select_admin, Db.update_last_login. unfold_program. simpl.
  rewrite H0. simpl. rewrite Hu. simpl.
  destruct (oracle 1%nat) as [k1 | m1]; simpl.
  - split; [reflexivity |]. split; [exact Hin |]. split; [exact Hp |].
    split; [| intros m [=]]. intros _.
    split; [| repeat split].
    clear. induction (users s) as [| a l IH]; simpl; constructor; [| exact IH].
    unfold stamped.
    destruct (String.eqb_spec (User.id a) (User.id u)) as [E | E]; simpl;
      repeat split; try reflexivity; intros E'; try reflexivity; contradiction.
  - split; [reflexivity |]. split; [exact Hin |]. split; [exact Hp |].
    split; [intros [k H]; discriminate H |]. intros m _. destruct s; reflexivity.
Qed.

Lemma admin_login_returns_stored_row_witness :
  fst (admin_login (reliable "t1") "2026-01-01T00:00:00.000Z"
         {| Login.email := "root@example.org"; Login.password := "secret" |}
         Sample.with_quiz)
  = json_ok (SuccessUser Sample.admin)
  /\ map User.last_login
         (users (snd (admin_login (reliable "t1") "2026-01-01T00:00:00.000Z"
                        {| Login.email := "root@example.org"; Login.password := "secret" |}
                        Sample.with_quiz)))
     = [Some "2026-01-01T00:00:00.000Z"].
Proof.
  pose proof (admin_login_returns_stored_row (reliable "t1") "2026-01-01T00:00:00.000Z"
                {| Login.email := "root@example.org"; Login.password := "secret" |}
                Sample.with_quiz Sample.admin (ex_intro _ "t1" eq_refl) eq_refl) as H.
  destruct (admin_login (reliable "t1") "2026-01-01T00:00:00.000Z"
              {| Login.email := "root@example.org"; Login.password := "secret" |}
              Sample.with_quiz) as [r s'].
  destruct H as (Hr & _ & _ & Hstamp & _).
  split; [exact Hr |].
  destruct (Hstamp (ex_intro _ "t1" eq_refl)) as (Husers & _).
  simpl. inversion Husers as [| a b l l' Hab Hrest E1 E2]; subst.
  inversion Hrest; subst. simpl.
  destruct Hab as (_ & _ & _ & _ & Hset & _). rewrite (Hset eq_refl). reflexivity.
Defined.

(** X13. A login is never answered 500: the answer is 200 or the fixed
    401 with the store unchanged.  In particular a lookup the store refuses,
    and a lookup that finds more than one matching admin, are answered like
    wrong credentials. *)
Theorem admin_login_never_500 oracle now req s :
  (status (fst (admin_login oracle now req s)) = 200%nat
   \/ admin_login oracle now req s = (unauthorized, s))
  /\ (forall m, oracle 0%nat = Refused m ->
      admin_login oracle now req s = (unauthorized, s))
  /\ (forall u u' rest,
        filter (Db.is_admin (Login.email req) (Login.password req)) (users s)
        = u :: u' :: rest ->
        admin_login oracle now req s = (unauthorized, s)).
Proof.
  unfold admin_login, Db.select_admin. unfold_program. simpl.
  split; [| split].
  - destruct (oracle 0%nat); simpl; [| right; destruct s; reflexivity].
    destruct (filter _ (users s)) as [| u [| u' l]]; simpl;
      try (right; destruct s; reflexivity).
    left. destruct (oracle 1%nat); reflexivity.
  - intros m H. rewrite H. destruct s; reflexivity.
  - intros u u' rest H. rewrite H. destruct (oracle 0%nat); destruct s; reflexivity.
Qed.

Lemma admin_login_never_500_witness :
  admin_login (Sample.refusing 0) "2026-01-01T00:00:00.000Z"
    {| Login.email := "root@example.org"; Login.password := "secret" |}
    Sample.with_quiz
  = (unauthorized, Sample.with_quiz)
  /\ admin_login (reliable "t1") "2026-01-01T00:00:00.000Z"
       {| Login.email := "root@example.org"; Login.password := "secret" |}
       More.two_admins
     = (unauthorized, More.two_admins).
Proof.
  split.
  - apply (admin_login_never_500 (Sample.refusing 0)) with (m := "connection lost").
    reflexivity.
  - apply (admin_login_never_500 (reliable "t1")) with
      (u := Sample.admin) (u' := More.admin_twin) (rest := []).
    reflexivity.
Defined.

(** ** POST /api/reviews *)

Lemma post_reviews_after_insert oracle req s :
  carried_out (oracle 0%nat) ->
  let (r, s') := post_reviews oracle req s in
  r = json_ok (SuccessReview (Some (review_of req)))
  /\ test_reviews s' = test_reviews s ++ [review_of req]
  /\ ((exists m, oracle 1%nat = Refused m) \/ (exists m, oracle 2%nat = Refused m) ->
      tests s' = tests s).
Proof.
  intros [k0 H0].
  unfold post_reviews, updateTestRating, Db.insert_review, Db.select_ratings,
    Db.update_rating.
  unfold_program. simpl. rewrite H0. simpl.
  destruct (oracle 1%nat) as [k1 | m1]; simpl.
  - destruct (map Review.rating _) as [| r0 rest] eqn:E; simpl.
    + repeat split.
    + destruct (oracle 2%nat) as [k2 | m2]; simpl.
      * split; [reflexivity |]. split; [reflexivity |].
        intros [[m H] | [m H]]; discriminate H.
      * repeat split.
  - repeat split.
Qed.

Lemma post_reviews_tests oracle req s :
  Forall2 (fun t t' =>
             t' = t
             \/ (Test.id t = NewReview.test_id req
                 /\ exists a c, 1 <= c /\ t' = Db.rated_test t a c))
          (tests s) (tests (snd (post_reviews oracle req s))).
Proof.
  assert (Same : Forall2 (fun t t' =>
             t' = t
             \/ (Test.id t = NewReview.test_id req
                 /\ exists a c, 1 <= c /\ t' = Db.rated_test t a c))
          (tests s) (tests s)).
  { induction (tests s); constructor; auto. }
  unfold post_reviews, updateTestRating, Db.insert_review, Db.select_ratings,
    Db.update_rating.
  unfold_program. simpl.
  destruct (oracle 0%nat) as [k0 | m0]; simpl; [| exact Same].
  destruct (oracle 1%nat) as [k1 | m1]; simpl; [| exact Same].
  destruct (map Review.rating _) as [| r0 rest] eqn:E; simpl; [exact Same |].
  destruct (oracle 2%nat) as [k2 | m2]; simpl; [| exact Same].
  clear. induction (tests s) as [| t l IH]; simpl; constructor; [| exact IH].
  destruct (Db.test_has (NewReview.test_id req) t) eqn:Hhas; [right | left; reflexivity].
  split; [apply String.eqb_eq; exact Hhas |].
  eexists. eexists. split; [| reflexivity]. lia.
Qed.

(** X14. The recompute of the rating cannot fail a review: once the insert
    is carried out the answer is 200 with the inserted row, whatever the
    store answers to the read of the ratings and to the write-back; when
    either is refused no test row changes, so the persisted rating stays
    behind the reviews. *)
Theorem post_reviews_masks_recompute_failure oracle req s :
  carried_out (oracle 0%nat) ->
  let (r, s') := post_reviews oracle req s in
  r = json_ok (SuccessReview (Some (review_of req)))
  /\ test_reviews s' = test_reviews s ++ [review_of req]
  /\ ((exists m, oracle 1%nat = Refused m) \/ (exists m, oracle 2%nat = Refused m) ->
      tests s' = tests s).
Proof.
  exact (post_reviews_after_insert oracle req s).
Qed.

Lemma post_reviews_masks_recompute_failure_witness :
  status (fst (post_reviews (Sample.refusing 2) Sample.praise Sample.with_quiz)) = 200%nat
  /\ map Test.review_count
         (tests (snd (post_reviews (Sample.refusing 2) Sample.praise Sample.with_quiz)))
     = [0].
Proof.
  pose proof (post_reviews_masks_recompute_failure (Sample.refusing 2) Sample.praise
                Sample.with_quiz (ex_intro _ "t1" eq_refl)) as H.
  destruct (post_reviews (Sample.refusing 2) Sample.praise Sample.with_quiz) as [r s'].
  destruct H as (Hr & _ & Hstale).
  simpl. rewrite Hr. rewrite Hstale; [split; reflexivity |].
  right. exists "connection lost". reflexivity.
Defined.

(** X15. Whatever the request and the store's answers, POST /api/reviews
    changes no table but [test_reviews] and [tests], and in [tests] it
    leaves every row as it was or, for a row under the review's test id,
    replaces the two rating columns, with a [review_count] of at least 1:
    it never sets a count to 0 and never touches another test. *)
Theorem post_reviews_touches_only_rating oracle req s :
  let s' := snd (post_reviews oracle req s) in
  Forall2 (fun t t' =>
             t' = t
             \/ (Test.id t = NewReview.test_id req
                 /\ exists a c, 1 <= c /\ t' = Db.rated_test t a c))
          (tests s) (tests s')
  /\ questions s' = questions s
  /\ tags s' = tags s
  /\ test_tags s' = test_tags s
  /\ results s' = results s
  /\ users s' = users s
  /\ admin_logs s' = admin_logs s.
Proof.
  split; [apply post_reviews_tests |].
  unfold post_reviews, updateTestRating, Db.insert_review, Db.select_ratings,
    Db.update_rating.
  unfold_program. simpl.
  destruct (oracle 0%nat) as [k0 | m0]; simpl; [| repeat split].
  destruct (oracle 1%nat) as [k1 | m1]; simpl; [| repeat split].
  destruct (map Review.rating _) as [| r0 rest] eqn:E; simpl; [repeat split |].
  destruct (oracle 2%nat) as [k2 | m2]; simpl; repeat split.
Qed.

(** ** POST /api/results *)

(** X16. In server.js a stored result always carries a name and never the
    empty one: a submission without [user_name], or with an empty one, is
    stored under "Anonymous", so rows that are all named stay all named. *)
Theorem post_results_keeps_results_named oracle req s :
  Forall named (results s) ->
  Forall named (results (snd (post_results oracle req s)))
  /\ (carried_out (oracle 0%nat) ->
      NewResult.user_name req = Some EmptyString ->
      exists row, results (snd (post_results oracle req s)) = results s ++ [row]
                  /\ Result.user_name row = Some "Anonymous").
Proof.
  intros Hnamed. unfold post_results, Db.insert_result. unfold_program. simpl.
  destruct (oracle 0%nat) as [k | m]; simpl.
  - split.
    + apply Forall_app. split; [exact Hnamed |]. constructor; [| constructor].
      unfold named. simpl. eexists. split; [reflexivity |].
      unfold Js.str_or. destruct (NewResult.user_name req) as [n |]; [| discriminate].
      destruct (String.eqb_spec n EmptyString); [discriminate | assumption].
    + intros _ Hempty. eexists. split; [reflexivity |]. simpl. rewrite Hempty.
      reflexivity.
  - split; [exact Hnamed |]. intros [k H]. discriminate H.
Qed.

Lemma post_results_keeps_results_named_witness :
  Forall named (results (snd (post_results (reliable "t1") More.nameless_attempt
                                           empty_store))).
Proof.
  apply (post_results_keeps_results_named (reliable "t1") More.nameless_attempt
           empty_store).
  constructor.
Defined.

(** ** The list routes *)

Section ListFacts.

Variable oracle : nat -> outcome.

Lemma testWithDetails_runs t s n :
  exists e,
    testWithDetails oracle t {| db := s; calls := n |}
    = (Return e, {| db := s; calls := S (S (S n)) |})
    /\ Listed.test e
       = Db.rated_test t (Test.average_rating (Listed.test e))
                       (Test.review_count (Listed.test e))
    /\ (carried_out (oracle n) ->
        Listed.questions e
        = order_by_order_index (filter (Db.question_of (Test.id t)) (questions s)))
    /\ (carried_out (oracle (S (S n))) ->
        let rs := approved_ratings s (Test.id t) in
        Test.review_count (Listed.test e) = Z.of_nat (List.length rs)
        /\ Test.average_rating (Listed.test e)
           = match rs with
             | [] => 0
             | _ :: _ => Js.toFixed1 (Js.div (Js.reduce_sum (fun r => r) rs)
                                             (Z.of_nat (List.length rs)))
             end)
    /\ (forall m, oracle (S (S n)) = Refused m ->
        Test.review_count (Listed.test e) = 0
        /\ Test.average_rating (Listed.test e) = 0)
    /\ (forall m, oracle n = Refused m -> Listed.questions e = []).
Proof.
  unfold testWithDetails, Db.select_questions, Db.select_test_tags, Db.select_ratings.
  unfold_program. cbn [db calls].
  destruct (oracle n) as [k0 | m0]; cbn [db calls];
    destruct (oracle (S n)) as [k1 | m1]; cbn [db calls];
    destruct (oracle (S (S n))) as [k2 | m2]; cbn [db calls data ok failed];
    eexists; (split; [reflexivity |]); (split; [reflexivity |]);
    (split; [first [intros [k H]; discriminate H | intros _; reflexivity] |]);
    (split; [| split]);
    try (intros [k H]; discriminate H);
    try (intros m H; discriminate H);
    try (intros m _; split; reflexivity);
    try (intros m _; reflexivity);
    intros _; unfold approved_ratings;
    cbn [Listed.test Db.rated_test Test.review_count Test.average_rating];
    (split; [reflexivity |]);
    (destruct (map Review.rating _) as [| r0 rest]; reflexivity).
Qed.

Lemma for_each_testWithDetails_reads ts s n :
  exists es,
    for_each (testWithDetails oracle) ts {| db := s; calls := n |}
    = (Return es, {| db := s; calls := (3 * List.length ts + n)%nat |}).
Proof.
  revert n. induction ts as [| t ts IH]; intros n.
  - exists []. reflexivity.
  - destruct (testWithDetails_runs t s n) as (e & He & _).
    destruct (IH (S (S (S n)))) as (es & Hes).
    exists (e :: es). simpl for_each. unfold bind at 1. rewrite He.
    unfold bind at 1. rewrite Hes. unfold ret. f_equal. f_equal.
    simpl List.length. lia.
Qed.

End ListFacts.

(** X17. No route that returns an array changes the store, whatever the
    store answers and in whatever order it returns rows. *)
Theorem list_routes_leave_store_unchanged oracle order_tests order_results order_tags
        test_id s :
  snd (get_tests oracle order_tests s) = s
  /\ snd (get_results oracle order_results s) = s
  /\ snd (get_tags oracle order_tags s) = s
  /\ snd (minimal_get_tests oracle order_tests s) = s
  /\ snd (minimal_get_results oracle test_id s) = s.
Proof.
  repeat split.
  - unfold get_tests, handle_list, Reads.select_published. unfold bind at 1.
    unfold call at 1. cbn [db calls].
    destruct (oracle 0%nat); [| reflexivity].
    unfold bind at 1. unfold data_or_throw, ret. cbn.
    unfold bind at 1.
    destruct (for_each_testWithDetails_reads oracle
                (order_tests (filter Test.is_published (tests s))) s 1) as (es & Hes).
    rewrite Hes. reflexivity.
  - unfold get_results, handle_list. unfold_program. simpl.
    destruct (oracle 0%nat); reflexivity.
  - unfold get_tags, handle_list. unfold_program. simpl.
    destruct (oracle 0%nat); reflexivity.
  - unfold minimal_get_tests, handle_list. unfold_program. simpl.
    destruct (oracle 0%nat); reflexivity.
  - unfold minimal_get_results, handle_list. unfold_program. simpl.
    destruct (oracle 0%nat); reflexivity.
Qed.

(** What GET /api/tests of server.js shows for a test when every read is
    carried out. *)
Lemma for_each_testWithDetails_reliable oracle ts s n :
  (forall i, carried_out (oracle i)) ->
  exists es,
    for_each (testWithDetails oracle) ts {| db := s; calls := n |}
    = (Return es, {| db := s; calls := (3 * List.length ts + n)%nat |})
    /\ Forall2 (shown_for s) ts es.
Proof.
  intros Hall. revert n. induction ts as [| t ts IH]; intros n.
  - exists []. split; [reflexivity | constructor].
  - destruct (testWithDetails_runs oracle t s n) as (e & He & Hrow & Hq & Hr & _ & _).
    destruct (IH (S (S (S n)))) as (es & Hes & Hall2).
    exists (e :: es). split.
    + simpl for_each. unfold bind at 1. rewrite He.
      unfold bind at 1. rewrite Hes. unfold ret. f_equal. f_equal.
      simpl List.length. lia.
    + constructor; [| exact Hall2].
      destruct (Hr (Hall _)) as [Hcount Havg].
      unfold shown_for. rewrite Hrow, Havg, Hcount, (Hq (Hall _)).
      split; [reflexivity |]. split; [reflexivity |].
      split; [reflexivity |].
      intros Hpos Hbound.
      destruct (approved_ratings s (Test.id t)) as [| r0 rest] eqn:E; [reflexivity |].
      simpl Test.average_rating. rewrite (reduce_sum_ratings _ Hpos Hbound).
      apply JsFacts.toFixed1_div_nearest.
      * clear - Hpos. induction Hpos; simpl; lia.
      * simpl List.length. lia.
      * exact Hbound.
Qed.

Lemma get_tests_reliable oracle newest_first s :
  (forall i, carried_out (oracle i)) ->
  exists entries,
    get_tests oracle newest_first s = (list_ok (TestEntries entries), s)
    /\ Forall2 (shown_for s) (newest_first (filter Test.is_published (tests s))) entries.
Proof.
  intros Hall.
  destruct (for_each_testWithDetails_reliable oracle
              (newest_first (filter Test.is_published (tests s))) s 1 Hall)
    as (es & Hes & Hshown).
  exists es. split; [| exact Hshown].
  unfold get_tests, handle_list, Reads.select_published. unfold bind at 1.
  unfold call at 1. cbn [db calls].
  destruct (Hall 0%nat) as [k0 H0]. rewrite H0.
  unfold bind at 1. unfold data_or_throw, ret. cbn.
  unfold bind at 1. rewrite Hes. reflexivity.
Qed.

(** X18. With every read carried out, GET /api/tests of server.js answers
    200 with one entry per published test, in the order the store returns
    them.  An entry is the test row with its two rating columns replaced by
    values computed from the approved reviews read now, whatever the row
    stores in them: [review_count] is their number, and [average_rating],
    for ratings that are whole numbers, not negative and with a sum below
    2^53 / 20, is 0 when there is no approved review and a one-decimal
    number within 0.05 of their mean otherwise.  The questions are the
    test's, in ascending [order_index]. *)
Theorem get_tests_computes_ratings oracle newest_first s :
  (forall i, carried_out (oracle i)) ->
  exists entries,
    get_tests oracle newest_first s = (list_ok (TestEntries entries), s)
    /\ Forall2 (shown_for s) (newest_first (filter Test.is_published (tests s))) entries.
Proof.
  exact (get_tests_reliable oracle newest_first s).
Qed.

Lemma get_tests_computes_ratings_witness :
  exists e,
    fst (get_tests (reliable "t1") (@rev Test.row) Sample.moderated)
    = list_ok (TestEntries [e])
    /\ Test.average_rating (Listed.test e) = 0
    /\ Test.review_count (Listed.test e) = 0
    /\ map Test.average_rating (tests Sample.moderated) = [45].
Proof.
  destruct (get_tests_computes_ratings (reliable "t1") (@rev Test.row) Sample.moderated)
    as (entries & Hrun & Hshown).
  - intros i. exists "t1". reflexivity.
  - change (rev (filter Test.is_published (tests Sample.moderated)))
      with [Sample.rated] in Hshown.
    inversion Hshown as [| t e ts es He Hrest]; subst. inversion Hrest; subst.
    exists e. rewrite Hrun. split; [reflexivity |].
    destruct He as (Hrow & Hcount & _ & Havg).
    split; [| split; [exact Hcount | reflexivity]].
    apply (Havg (Forall_nil _)). reflexivity.
Defined.

(** X19. GET /api/tests of server.js fails only on its first read: a
    refused read of the tests is answered 500 with the store's message,
    and once that read is carried out the answer is 200 whatever the store
    answers to the reads of questions, tags and reviews; a test whose
    reviews could not be read is shown with a rating of 0 over 0 reviews,
    and one whose questions could not be read with the questions the
    store would have returned replaced by an empty list. *)
Theorem get_tests_fails_only_on_first_read oracle newest_first s :
  (forall m, oracle 0%nat = Refused m ->
     fst (get_tests oracle newest_first s)
     = {| list_status := 500; listed := ListError m |})
  /\ (carried_out (oracle 0%nat) ->
      list_status (fst (get_tests oracle newest_first s)) = 200%nat)
  /\ (forall t n m e w,
        testWithDetails oracle t {| db := s; calls := n |} = (Return e, w) ->
        (oracle (S (S n)) = Refused m ->
         Test.review_count (Listed.test e) = 0
         /\ Test.average_rating (Listed.test e) = 0)
        /\ (oracle n = Refused m -> Listed.questions e = [])).
Proof.
  split; [| split].
  - intros m H. unfold get_tests, handle_list. unfold bind at 1. unfold call at 1.
    cbn [db calls]. rewrite H. reflexivity.
  - intros [k0 H0].
    unfold get_tests, handle_list, Reads.select_published. unfold bind at 1.
    unfold call at 1. cbn [db calls]. rewrite H0.
    unfold bind at 1. unfold data_or_throw, ret. cbn.
    unfold bind at 1.
    destruct (for_each_testWithDetails_reads oracle
                (newest_first (filter Test.is_published (tests s))) s 1) as (es & Hes).
    rewrite Hes. reflexivity.
  - intros t n m e w Hrun.
    destruct (testWithDetails_runs oracle t s n)
      as (e' & He' & _ & _ & _ & Hmask & Hempty).
    rewrite He' in Hrun. injection Hrun as -> _.
    split; [apply Hmask | apply Hempty].
Qed.

(** ** GET /api/results/:test_id of the minimal route set *)

Lemma insert_by_completed_permutation r rs :
  Permutation (insert_by_completed r rs) (r :: rs).
Proof.
  induction rs as [| r' rest IH]; simpl; [apply Permutation_refl |].
  destruct (later_or_equal r r').
  - apply Permutation_refl.
  - eapply perm_trans; [apply perm_skip; exact IH | apply perm_swap].
Qed.

Lemma order_by_completed_desc_permutation rs :
  Permutation (order_by_completed_desc rs) rs.
Proof.
  induction rs as [| r rest IH]; simpl; [constructor |].
  eapply perm_trans; [apply insert_by_completed_permutation |].
  apply perm_skip. exact IH.
Qed.

Lemma later_or_equal_total a b :
  later_or_equal a b = false -> later_or_equal b a = true.
Proof.
  unfold later_or_equal.
  destruct (Result.completed_at a) as [x |], (Result.completed_at b) as [y |];
    try discriminate; try reflexivity.
  intros H. destruct (String.leb_total x y) as [T | T]; [exact T | congruence].
Qed.

Lemma insert_by_completed_sorted r rs :
  Sorted by_completed_desc rs -> Sorted by_completed_desc (insert_by_completed r rs).
Proof.
  induction 1 as [| r' rest Hsorted IH Hhd]; simpl.
  - constructor; constructor.
  - destruct (later_or_equal r r') eqn:E.
    + constructor; [constructor; assumption |]. constructor. exact E.
    + constructor; [exact IH |].
      destruct rest as [| r'' rest']; simpl.
      * constructor. apply later_or_equal_total. exact E.
      * destruct (later_or_equal r r''); constructor.
        -- apply later_or_equal_total. exact E.
        -- inversion Hhd. assumption.
Qed.

Lemma order_by_completed_desc_sorted rs :
  Sorted by_completed_desc (order_by_completed_desc rs).
Proof.
  induction rs as [| r rest IH]; simpl; [constructor |].
  apply insert_by_completed_sorted. exact IH.
Qed.

Lemma minimal_get_results_run oracle test_id s :
  carried_out (oracle 0%nat) ->
  minimal_get_results oracle test_id s
  = (list_ok (ResultRows
                (order_by_completed_desc
                   (filter (fun r => String.eqb (Result.test_id r) test_id)
                           (results s)))), s).
Proof.
  intros [k0 H0].
  unfold minimal_get_results, handle_list, Reads.select_results_of. unfold_program.
  simpl. rewrite H0. reflexivity.
Qed.

(** X20. When its read is carried out, GET /api/results/:test_id returns
    the results stored for that test, all of them and no other, with later
    [completed_at] first and rows without one before the others. *)
Theorem minimal_get_results_sorted oracle test_id s :
  carried_out (oracle 0%nat) ->
  exists rows,
    minimal_get_results oracle test_id s = (list_ok (ResultRows rows), s)
    /\ Permutation rows
         (filter (fun r => String.eqb (Result.test_id r) test_id) (results s))
    /\ Sorted by_completed_desc rows.
Proof.
  intros H0. eexists. split; [apply minimal_get_results_run; exact H0 |].
  split; [apply order_by_completed_desc_permutation
         | apply order_by_completed_desc_sorted].
Qed.

Lemma minimal_get_results_sorted_witness :
  exists rows,
    fst (minimal_get_results (reliable "t1") "t1" More.two_attempts)
    = list_ok (ResultRows rows)
    /\ map Result.score rows = [7; 3].
Proof.
  destruct (minimal_get_results_sorted (reliable "t1") "t1" More.two_attempts
              (ex_intro _ "t1" eq_refl)) as (rows & Hrun & _).
  exists rows. rewrite Hrun. split; [reflexivity |].
  injection Hrun as <-. reflexivity.
Defined.

(** X21. A result stored by POST /api/results of the minimal route set
    comes back from GET /api/results/:test_id of its test, with the name as
    submitted and the time of the request as [completed_at]. *)
Theorem minimal_result_round_trip oracle oracle' now req s :
  carried_out (oracle 0%nat) ->
  carried_out (oracle' 0%nat) ->
  exists row rows,
    fst (Minimal.post_results oracle now req s) = json_ok (ResultRow (Some row))
    /\ fst (minimal_get_results oracle' (NewResult.test_id req)
                                (snd (Minimal.post_results oracle now req s)))
       = list_ok (ResultRows rows)
    /\ In row rows
    /\ Result.user_name row = NewResult.user_name req
    /\ Result.completed_at row = Some now
    /\ List.length rows
       = S (List.length (filter (fun r => String.eqb (Result.test_id r)
                                                     (NewResult.test_id req))
                                (results s))).
Proof.
  intros [k0 H0] G0.
  pose proof (minimal_get_results_run oracle' (NewResult.test_id req)
                (snd (Minimal.post_results oracle now req s)) G0) as Hrun.
  pose proof (order_by_completed_desc_permutation
                (filter (fun r => String.eqb (Result.test_id r) (NewResult.test_id req))
                        (results (snd (Minimal.post_results oracle now req s)))))
    as Hperm.
  set (rows := order_by_completed_desc _) in *. clearbody rows.
  revert rows Hrun Hperm.
  unfold Minimal.post_results, Db.insert_result. unfold_program. simpl.
  rewrite H0. simpl. intros rows Hrun Hperm.
  eexists. exists rows. split; [reflexivity |].
  split; [rewrite Hrun; reflexivity |].
  rewrite filter_app in Hperm. simpl in Hperm.
  rewrite String.eqb_refl in Hperm.
  split; [| split; [reflexivity | split; [reflexivity |]]].
  - eapply Permutation_in; [apply Permutation_sym; exact Hperm |].
    apply in_or_app. right. left. reflexivity.
  - rewrite (Permutation_length Hperm), length_app. simpl. lia.
Qed.

Lemma minimal_result_round_trip_witness :
  exists rows,
    fst (minimal_get_results (reliable "t1") "t1"
           (snd (Minimal.post_results (reliable "t1") "2026-03-01T00:00:00.000Z"
                                      Sample.attempt More.two_attempts)))
    = list_ok (ResultRows rows)
    /\ List.length rows = 3%nat.
Proof.
  destruct (minimal_result_round_trip (reliable "t1") (reliable "t1")
              "2026-03-01T00:00:00.000Z" Sample.attempt More.two_attempts
              (ex_intro _ "t1" eq_refl) (ex_intro _ "t1" eq_refl))
    as (row & rows & _ & Hrun & _ & _ & _ & Hlen).
  exists rows. split; [exact Hrun | exact Hlen].
Defined.

(** ** Published and unpublished tests *)

(** X22. For a store that returns the rows it was asked for in some order,
    GET /api/tests of server.js lists the published tests and no
    unpublished one, while the minimal route set lists every test. *)
Theorem get_tests_hides_unpublished oracle newest_first s :
  (forall l, Permutation (newest_first l) l) ->
  (forall i, carried_out (oracle i)) ->
  exists entries rows,
    fst (get_tests oracle newest_first s) = list_ok (TestEntries entries)
    /\ fst (minimal_get_tests oracle newest_first s) = list_ok (TestRows rows)
    /\ Forall (fun e => Test.is_published (Listed.test e) = true) entries
    /\ Permutation (map (fun e => Test.id (Listed.test e)) entries)
                   (map Test.id (filter Test.is_published (tests s)))
    /\ Permutation rows (tests s).
Proof.
  intros Hperm Hall.
  destruct (get_tests_reliable oracle newest_first s Hall)
    as (entries & Hrun & Hshown).
  exists entries, (newest_first (tests s)).
  split; [rewrite Hrun; reflexivity |].
  split.
  { unfold minimal_get_tests, handle_list, Reads.select_tests. unfold_program. simpl.
    destruct (Hall 0%nat) as [k0 H0]. rewrite H0. reflexivity. }
  assert (Hpub : Forall (fun t => Test.is_published t = true)
                        (newest_first (filter Test.is_published (tests s)))).
  { apply (Permutation_Forall (Permutation_sym (Hperm _))).
    apply Forall_forall. intros t Ht. apply filter_In in Ht as [_ Ht]. exact Ht. }
  assert (Hids : map (fun e => Test.id (Listed.test e)) entries
                 = map Test.id (newest_first (filter Test.is_published (tests s)))).
  { clear - Hshown. induction Hshown as [| t e ts es He _ IH]; [reflexivity |].
    simpl. rewrite IH. destruct He as (Hrow & _). rewrite Hrow. reflexivity. }
  split; [| split; [rewrite Hids; apply Permutation_map; apply Hperm | apply Hperm]].
  clear - Hshown Hpub.
  induction Hshown as [| t e ts es He _ IH]; [constructor |].
  inversion Hpub; subst. constructor; [| apply IH; assumption].
  destruct He as (Hrow & _). rewrite Hrow. assumption.
Qed.

Lemma get_tests_hides_unpublished_witness :
  exists entries rows,
    fst (get_tests (reliable "t1") (@rev Test.row) More.with_draft)
    = list_ok (TestEntries entries)
    /\ fst (minimal_get_tests (reliable "t1") (@rev Test.row) More.with_draft)
       = list_ok (TestRows rows)
    /\ List.length entries = 1%nat
    /\ List.length rows = 2%nat.
Proof.
  destruct (get_tests_hides_unpublished (reliable "t1") (@rev Test.row) More.with_draft)
    as (entries & rows & He & Hr & _ & Hids & Hrows).
  - intros l. apply Permutation_sym, Permutation_rev.
  - intros i. exists "t1". reflexivity.
  - exists entries, rows. split; [exact He |]. split; [exact Hr |].
    split.
    + rewrite <- (length_map (fun e => Test.id (Listed.test e))).
      rewrite (Permutation_length Hids). reflexivity.
    + rewrite (Permutation_length Hrows). reflexivity.
Defined.

(** ** More on create and update *)

(** The tag links a handler inserts for the [tags] of a request. *)
(** X23. POST /api/tests never removes or rewrites a stored row, whatever
    the store answers: every table is the table as it was followed by the
    rows the request appended, and results, reviews, users and tags are
    untouched.  After a create that answered 200, the appended tag links
    are one per submitted tag, under the new test's key, and none when
    [tags] is missing or empty. *)
Theorem post_tests_only_appends oracle req s :
  let s' := snd (post_tests oracle req s) in
  (exists added, tests s' = tests s ++ added)
  /\ (exists added, questions s' = questions s ++ added)
  /\ (exists added, test_tags s' = test_tags s ++ added)
  /\ (exists added, admin_logs s' = admin_logs s ++ added)
  /\ results s' = results s
  /\ test_reviews s' = test_reviews s
  /\ users s' = users s
  /\ tags s' = tags s
  /\ (forall k, oracle 0%nat = Done k ->
      status (fst (post_tests oracle req s)) = 200%nat ->
      test_tags s' = test_tags s ++ testTags k (tags_or_empty (NewTest.tags req))).
Proof.
  assert (N : forall A (l : list A), exists added, l = l ++ added)
    by (intros A l; exists []; symmetry; apply app_nil_r).
  unfold post_tests, questionsWithTestId, Db.insert_test, Db.insert_questions,
    Db.insert_test_tags, Db.insert_log.
  unfold_program. simpl.
  destruct (oracle 0%nat) as [k0 | m0]; simpl.
  2: { repeat split; auto. intros k [=]. }
  destruct (question_rows k0 0 (NewTest.questions req)) as [rows |]; simpl.
  2: { repeat split; eauto. intros k _ [=]. }
  destruct (oracle 1%nat) as [k1 | m1]; simpl.
  2: { repeat split; eauto. intros k _ [=]. }
  destruct (NewTest.tags req) as [[| tag more] |]; simpl;
    destruct (oracle 2%nat) as [k2 | m2]; simpl;
    try (destruct (oracle 3%nat) as [k3 | m3]; simpl);
    repeat split; eauto;
    try (intros k [= <-] _; rewrite ?app_nil_r; reflexivity);
    try (intros k _ [=]).
Qed.

Lemma put_test_success_tags oracle now id req s :
  status (fst (put_test oracle now id req s)) = 200%nat ->
  test_tags (snd (put_test oracle now id req s))
  = match oracle 3%nat with
    | Done _ => filter (fun l => negb (Db.tag_link_of id l)) (test_tags s)
    | Refused _ => test_tags s
    end ++ testTags id (tags_or_empty (TestUpdate.tags req)).
Proof.
  unfold put_test, questionsWithTestId, Db.update_test. unfold_program. simpl.
  destruct (oracle 0%nat) as [k0 | m0]; simpl; [| discriminate].
  destruct (filter (Db.test_has id) (tests s)) as [| t [| t' l]]; simpl;
    try discriminate.
  destruct (question_rows id 0 (TestUpdate.questions req)) as [rows |]; simpl.
  - destruct (oracle 1%nat); simpl;
      (destruct (oracle 2%nat); simpl; [| discriminate]);
      destruct (oracle 3%nat); simpl;
      destruct (TestUpdate.tags req) as [[| tag more] |]; simpl;
      destruct (oracle 4%nat); simpl; try discriminate;
      try (destruct (oracle 5%nat); simpl); intros _;
      rewrite ?app_nil_r; reflexivity.
  - destruct (oracle 1%nat); simpl; discriminate.
Qed.

(** X24. After a PUT that answered 200 and whose delete of the old tag
    links the store carried out, the tag links of the test are exactly one
    per submitted tag, in the submitted order, and none when [tags] is
    missing or empty; the links of other tests are untouched. *)
Theorem put_test_replaces_tags oracle now id req s :
  status (fst (put_test oracle now id req s)) = 200%nat ->
  carried_out (oracle 3%nat) ->
  let s' := snd (put_test oracle now id req s) in
  filter (Db.tag_link_of id) (test_tags s')
  = testTags id (tags_or_empty (TestUpdate.tags req))
  /\ map TestTag.tag_id (filter (Db.tag_link_of id) (test_tags s'))
     = map Payload.id (tags_or_empty (TestUpdate.tags req))
  /\ filter (fun l => negb (Db.tag_link_of id l)) (test_tags s')
     = filter (fun l => negb (Db.tag_link_of id l)) (test_tags s).
Proof.
  intros Hok [k3 H3] s'.
  pose proof (put_test_success_tags oracle now id req s Hok) as Ht.
  rewrite H3 in Ht. subst s'. rewrite Ht.
  assert (Hown : forall l, In l (testTags id (tags_or_empty (TestUpdate.tags req))) ->
                           Db.tag_link_of id l = true).
  { intros l Hl. unfold testTags in Hl. apply in_map_iff in Hl as (tag & <- & _).
    unfold Db.tag_link_of. simpl. apply String.eqb_refl. }
  rewrite !filter_app, filter_filter_negb, filter_negb_idem.
  rewrite (filter_all _ _ Hown), (filter_negb_none _ _ Hown), app_nil_r. simpl.
  split; [reflexivity |]. split; [| reflexivity].
  unfold testTags. rewrite map_map. reflexivity.
Qed.

Lemma put_test_replaces_tags_witness :
  filter (Db.tag_link_of "t1")
         (test_tags (snd (put_test (reliable "t1") "2026-01-01T00:00:00.000Z" "t1"
                                   Sample.revision Sample.with_quiz)))
  = [].
Proof.
  destruct (put_test_replaces_tags (reliable "t1") "2026-01-01T00:00:00.000Z" "t1"
              Sample.revision Sample.with_quiz eq_refl (ex_intro _ "t1" eq_refl))
    as (H & _).
  exact H.
Defined.

(** X25. A PUT never changes a test row's key, rating columns, creator or
    published flag, and never touches results, reviews, users or tags,
    whatever the store answers: each test row is left as it was or, under
    the id of the request, gets the submitted title and description, the
    recomputed counts and the time of the request. *)
Theorem put_test_keeps_rating_columns oracle now id req s :
  let s' := snd (put_test oracle now id req s) in
  Forall2 (fun t t' =>
             t' = t
             \/ (Test.id t = id
                 /\ t' = Db.updated_test t (TestUpdate.title req)
                           (TestUpdate.description req)
                           (Z.of_nat (List.length (TestUpdate.questions req)))
                           (total_points_of (TestUpdate.questions req)) now))
          (tests s) (tests s')
  /\ Forall2 (fun t t' =>
                Test.id t' = Test.id t
                /\ Test.average_rating t' = Test.average_rating t
                /\ Test.review_count t' = Test.review_count t
                /\ Test.created_by t' = Test.created_by t
                /\ Test.is_published t' = Test.is_published t)
             (tests s) (tests s')
  /\ results s' = results s
  /\ test_reviews s' = test_reviews s
  /\ users s' = users s
  /\ tags s' = tags s.
Proof.
  set (change := fun t => Db.updated_test t (TestUpdate.title req)
                            (TestUpdate.description req)
                            (Z.of_nat (List.length (TestUpdate.questions req)))
                            (total_points_of (TestUpdate.questions req)) now).
  assert (Same : forall l : list Test.row,
             Forall2 (fun t t' => t' = t \/ (Test.id t = id /\ t' = change t)) l l
             /\ Forall2 (fun t t' =>
                Test.id t' = Test.id t
                /\ Test.average_rating t' = Test.average_rating t
                /\ Test.review_count t' = Test.review_count t
                /\ Test.created_by t' = Test.created_by t
                /\ Test.is_published t' = Test.is_published t) l l).
  { induction l as [| t l [IH1 IH2]]; split; constructor; auto; repeat split. }
  assert (Changed : forall l : list Test.row,
             Forall2 (fun t t' => t' = t \/ (Test.id t = id /\ t' = change t)) l
                     (map (fun r => if Db.test_has id r then change r else r) l)
             /\ Forall2 (fun t t' =>
                Test.id t' = Test.id t
                /\ Test.average_rating t' = Test.average_rating t
                /\ Test.review_count t' = Test.review_count t
                /\ Test.created_by t' = Test.created_by t
                /\ Test.is_published t' = Test.is_published t) l
                     (map (fun r => if Db.test_has id r then change r else r) l)).
  { induction l as [| t l [IH1 IH2]]; split; simpl; constructor; auto.
    - destruct (Db.test_has id t) eqn:E; [right | left; reflexivity].
      split; [apply String.eqb_eq; exact E | reflexivity].
    - destruct (Db.test_has id t); repeat split. }
  unfold put_test, questionsWithTestId, Db.update_test. unfold_program. simpl.
  fold change.
  destruct (Same (tests s)) as [S1 S2]. destruct (Changed (tests s)) as [C1 C2].
  destruct (oracle 0%nat) as [k0 | m0]; simpl; [| repeat split; assumption].
  destruct (filter (Db.test_has id) (tests s)) as [| t [| t' l]]; simpl;
    try (repeat split; assumption).
  destruct (oracle 1%nat); simpl;
    (destruct (question_rows id 0 (TestUpdate.questions req)) as [rows |]; simpl;
     [| repeat split; assumption]);
    (destruct (oracle 2%nat); simpl; [| repeat split; assumption]);
    destruct (oracle 3%nat); simpl;
    destruct (TestUpdate.tags req) as [[| tag more] |]; simpl;
    destruct (oracle 4%nat); simpl; try (repeat split; assumption);
    destruct (oracle 5%nat); simpl; repeat split; assumption.
Qed.

(** ** Reviews for a test the store does not hold *)

(** X26. POST /api/reviews does not check that the test exists: a review
    for an id no test row carries is stored and answered 200, and no test
    row changes. *)
Theorem post_reviews_for_missing_test oracle req s :
  (forall t, In t (tests s) -> Test.id t <> NewReview.test_id req) ->
  carried_out (oracle 0%nat) ->
  let (r, s') := post_reviews oracle req s in
  status r = 200%nat
  /\ test_reviews s' = test_reviews s ++ [review_of req]
  /\ tests s' = tests s.
Proof.
  intros Hmissing H0.
  pose proof (post_reviews_after_insert oracle req s H0) as M.
  pose proof (post_reviews_tests oracle req s) as F.
  destruct (post_reviews oracle req s) as [r s']. simpl in F.
  destruct M as (Hr & Hrev & _).
  split; [rewrite Hr; reflexivity |]. split; [exact Hrev |].
  clear - F Hmissing.
  induction F as [| t t' l l' Ht _ IH]; [reflexivity |].
  f_equal.
  - destruct Ht as [-> | [Hid _]]; [reflexivity |].
    exfalso. apply (Hmissing t (or_introl eq_refl)). exact Hid.
  - apply IH. intros x Hx. apply Hmissing. right. exact Hx.
Qed.

Lemma post_reviews_for_missing_test_witness :
  status (fst (post_reviews (reliable "t1") More.stray_review Sample.with_quiz)) = 200%nat
  /\ tests (snd (post_reviews (reliable "t1") More.stray_review Sample.with_quiz))
     = tests Sample.with_quiz.
Proof.
  pose proof (post_reviews_for_missing_test (reliable "t1") More.stray_review
                Sample.with_quiz) as H.
  destruct (post_reviews (reliable "t1") More.stray_review Sample.with_quiz) as [r s'].
  destruct H as (Hr & _ & Ht).
  - intros t [<- | []]. discriminate.
  - exists "t1". reflexivity.
  - split; [exact Hr | exact Ht].
Defined.

(** ** Composing requests *)

(** X27. After a DELETE that answered 200, a GET of the same id is
    answered 500 in both route sets: the test is gone. *)
Theorem deleted_test_cannot_be_got oracle oracle' id user_id s :
  status (fst (delete_test oracle id user_id s)) = 200%nat ->
  status (fst (get_test oracle' id (snd (delete_test oracle id user_id s)))) = 500%nat
  /\ status (fst (Minimal.get_test oracle' id (snd (delete_test oracle id user_id s))))
     = 500%nat.
Proof.
  intros Hok.
  assert (F : filter (Db.test_has id) (tests (snd (delete_test oracle id user_id s)))
              = []).
  { revert Hok. unfold delete_test, Db.select_test, Db.delete_test. unfold_program.
    simpl. destruct (oracle 0%nat); simpl;
      (destruct (oracle 1%nat); simpl; [| discriminate]);
      destruct (oracle 2%nat); simpl; intros _; apply filter_filter_negb. }
  unfold get_test, Minimal.get_test, Db.select_test. unfold_program. simpl.
  rewrite F. destruct (oracle' 0%nat); split; reflexivity.
Qed.

Lemma deleted_test_cannot_be_got_witness :
  status (fst (get_test (reliable "t1") "t1"
                 (snd (delete_test (reliable "t1") "t1" (Some "admin-1")
                                   Sample.with_quiz)))) = 500%nat.
Proof.
  apply (deleted_test_cannot_be_got (reliable "t1") (reliable "t1") "t1"
           (Some "admin-1") Sample.with_quiz eq_refl).
Defined.

Lemma filter_map_commute {A} (p : A -> bool) (f : A -> A) (l : list A) :
  (forall x, p (f x) = p x) ->
  filter p (map f l) = map f (filter p l).
Proof.
  intros H. induction l as [| x l IH]; [reflexivity |].
  simpl. rewrite H. destruct (p x); simpl; rewrite IH; reflexivity.
Qed.

Lemma filter_is_admin_stamped email password i now (l : list User.row) :
  filter (Db.is_admin email password)
         (map (fun u => if String.eqb (User.id u) i
                        then {| User.id := User.id u; User.email := User.email u;
                                User.password_hash := User.password_hash u;
                                User.role := User.role u;
                                User.last_login := Some now |}
                        else u) l)
  = map (fun u => if String.eqb (User.id u) i
                  then {| User.id := User.id u; User.email := User.email u;
                          User.password_hash := User.password_hash u;
                          User.role := User.role u;
                          User.last_login := Some now |}
                  else u)
        (filter (Db.is_admin email password) l).
Proof.
  apply filter_map_commute. intros u.
  destruct (String.eqb (User.id u) i); reflexivity.
Qed.

(** X28. The time one login stamps is what the next login returns: after a
    login that matched one admin and whose stamp the store carried out, a
    second login with the same credentials is answered with that user's
    row carrying the first login's time as [last_login]. *)
Theorem second_login_returns_first_stamp oracle oracle' now now' req s u :
  carried_out (oracle 0%nat) ->
  carried_out (oracle 1%nat) ->
  carried_out (oracle' 0%nat) ->
  filter (Db.is_admin (Login.email req) (Login.password req)) (users s) = [u] ->
  fst (admin_login oracle' now' req (snd (admin_login oracle now req s)))
  = json_ok (SuccessUser
               {| User.id := User.id u; User.email := User.email u;
                  User.password_hash := User.password_hash u;
                  User.role := User.role u;
                  User.last_login := Some now |}).
Proof.
  intros [k0 H0] [k1 H1] [k0' H0'] Hu.
  unfold admin_login, Db.select_admin, Db.update_last_login. unfold_program. simpl.
  rewrite H0. simpl. rewrite Hu. simpl. rewrite H1. simpl. rewrite H0'. simpl.
  rewrite filter_is_admin_stamped, Hu. simpl. rewrite String.eqb_refl. simpl.
  destruct (oracle' 1%nat); reflexivity.
Qed.

Lemma second_login_returns_first_stamp_witness :
  exists u,
    fst (admin_login (reliable "t1") "2026-01-02T00:00:00.000Z"
           {| Login.email := "root@example.org"; Login.password := "secret" |}
           (snd (admin_login (reliable "t1") "2026-01-01T00:00:00.000Z"
                   {| Login.email := "root@example.org"; Login.password := "secret" |}
                   Sample.with_quiz)))
    = json_ok (SuccessUser u)
    /\ User.last_login u = Some "2026-01-01T00:00:00.000Z".
Proof.
  eexists. split.
  - apply (second_login_returns_first_stamp (reliable "t1") (reliable "t1")
             "2026-01-01T00:00:00.000Z" "2026-01-02T00:00:00.000Z"
             {| Login.email := "root@example.org"; Login.password := "secret" |}
             Sample.with_quiz Sample.admin
             (ex_intro _ "t1" eq_refl) (ex_intro _ "t1" eq_refl)
             (ex_intro _ "t1" eq_refl) eq_refl).
  - reflexivity.
Defined.

(** ** The shown average *)

Lemma nearest_tenth_exact t t0 s n :
  0 < n -> nearest_tenth t s n -> 10 * s = t0 * n -> t = t0.
Proof.
  unfold nearest_tenth. intros Hn [L U] E.
  assert ((2 * t - 1) * n <= 2 * t0 * n) by lia.
  assert (2 * t0 * n <= (2 * t + 1) * n) by lia.
  assert (2 * t - 1 <= 2 * t0) by nia.
  assert (2 * t0 <= 2 * t + 1) by nia.
  lia.
Qed.

Lemma sum_list_bounds lo hi (rs : list Z) :
  Forall (fun r => lo <= r <= hi) rs ->
  lo * Z.of_nat (List.length rs) <= sum_list rs <= hi * Z.of_nat (List.length rs).
Proof.
  induction 1 as [| r rs Hr _ IH]; simpl List.length; simpl sum_list; [lia |].
  rewrite Nat2Z.inj_succ. lia.
Qed.

(** X29. The average both routes compute, [parseFloat((sum /
    List.length).toFixed(1))], stays within the range of the ratings: for
    ratings between [lo] and [hi] it lies between [lo] and [hi]; and when
    the mean has one decimal it is that number exactly, so reviews that all
    give [r] average to [r]. *)
Theorem shown_average_in_range lo hi rs :
  rs <> [] ->
  0 <= lo ->
  Forall (fun r => lo <= r <= hi) rs ->
  20 * sum_list rs < 2 ^ 53 ->
  let n := Z.of_nat (List.length rs) in
  let shown := Js.toFixed1 (Js.div (Js.reduce_sum (fun r => r) rs) n) in
  10 * lo <= shown <= 10 * hi
  /\ (forall t0, 10 * sum_list rs = t0 * n -> shown = t0)
  /\ (lo = hi -> shown = 10 * lo).
Proof.
  intros Hne Hlo Hrange Hbound n shown.
  assert (Hn : 0 < n).
  { unfold n. destruct rs; [contradiction | simpl List.length; lia]. }
  pose proof (sum_list_bounds lo hi rs Hrange) as [Slo Shi]. fold n in Slo, Shi.
  assert (Hnear : nearest_tenth shown (sum_list rs) n).
  { assert (Hpos : Forall (fun r => 0 <= r) rs).
    { eapply Forall_impl; [| exact Hrange]. simpl. intros r Hr. lia. }
    unfold shown. rewrite (reduce_sum_ratings rs Hpos Hbound).
    apply JsFacts.toFixed1_div_nearest; [nia | exact Hn | exact Hbound]. }
  assert (Hexact : forall t0, 10 * sum_list rs = t0 * n -> shown = t0).
  { intros t0 E. eapply nearest_tenth_exact; eassumption. }
  split; [| split; [exact Hexact |]].
  - destruct Hnear as [L U]. split.
    + assert ((20 * lo) * n <= (2 * shown + 1) * n) by nia.
      assert (20 * lo <= 2 * shown + 1) by nia. lia.
    + assert ((2 * shown - 1) * n <= (20 * hi) * n) by nia.
      assert (2 * shown - 1 <= 20 * hi) by nia. lia.
  - intros ->. apply Hexact. nia.
Qed.

Lemma shown_average_in_range_witness :
  Js.toFixed1 (Js.div (Js.reduce_sum (fun r => r) [4; 4; 4]) 3) = 40.
Proof.
  destruct (shown_average_in_range 4 4 [4; 4; 4]) as (_ & _ & H).
  - discriminate.
  - lia.
  - repeat constructor; lia.
  - reflexivity.
  - apply H. reflexivity.
Defined.
